(** * ProconXInput: the protocol translation engine of [src/Controller.cpp]

    A shallow embedding of the Switch Pro Controller to XInput bridge:
    the input-packet decoder, the axis normaliser, the button tables, the
    registry of live controllers with the ViGEm feedback callback, and the
    session operations (constructor, destructor, [openDevice], [pollInput]).

    Conventions.
    - [uchar], [short], [unsigned short] values are integers of [Z]; every
      narrowing conversion of the source is written out ([to_uchar],
      [to_ushort], [static_cast_short]).
    - [double] is IEEE 754 binary64 in the Standard Library's executable
      specification ([SpecFloat], precision 53, round to nearest even); each
      C++ operator is one correctly rounded operation (no fused
      multiply-add contraction).
    - The process-wide state is a [World]: the storage of the live
      [Controller] objects by address, the registry
      [controllers] of references to them, and the trace of calls made on
      the external collaborators (hidapi, ViGEm, the clock, stdout).
    - What the external collaborators answer is given by an [Env] of
      oracles that see the trace so far.
    - [controllerSetMut] is held for the whole of the constructor, of the
      destructor and of the feedback callback: each of them is one
      transition of the [World].
    - Of [Controller.hpp], the product id and the three bit tables are the
      fields of [Hpp]; the member functions [exchange], [sendCommand] and
      [sendSubcommand] declared there are calls on the device, recorded
      with their arguments and answered by [Env]. *)

From Stdlib Require Import ZArith List String Lia.
From Stdlib Require Import Floats.SpecFloat.
From stdpp Require Import base option list gmap.
Import ListNotations.
Local Open Scope Z_scope.

(** ** Outcomes of a call *)

Inductive exception : Type :=
| ControllerException (what : string)   (* Procon::ControllerException, a runtime_error *)
| logic_error (what : string).          (* std::logic_error *)

(** A call returns, throws, or has undefined behaviour (an out-of-bounds
    read, a dangling reference, an out-of-range floating conversion). *)
Inductive outcome (A : Type) : Type :=
| Ret (a : A)
| Throw (e : exception)
| Undefined.
Arguments Ret {A} a.
Arguments Throw {A} e.
Arguments Undefined {A}.

Definition obind {A B : Type} (m : outcome A) (k : A -> outcome B) : outcome B :=
  match m with
  | Ret a => k a
  | Throw e => Throw e
  | Undefined => Undefined
  end.

(** The monad structure, so that stdpp's [x ← m; k] reads as sequencing. *)
#[global] Instance outcome_ret : MRet outcome := @Ret.
#[global] Instance outcome_bind : MBind outcome := fun A B k m => obind m k.

(** ** Integer types of the source *)

Definition uchar := Z.
Definition to_uchar (z : Z) : uchar := z mod 2 ^ 8.
Definition to_ushort (z : Z) : Z := z mod 2 ^ 16.

Definition uchar_max : Z := 255.        (* std::numeric_limits<uchar>::max() *)
Definition short_max : Z := 32767.      (* std::numeric_limits<short>::max() *)
Definition short_min : Z := -32768.     (* std::numeric_limits<short>::min() *)
Definition BYTE_max : Z := 255.         (* std::numeric_limits<BYTE>::max() *)

(** ** Wire constants (anonymous namespace, lines 63-77) *)

Module Wire.
Definition getMAC : list uchar := [0x80; 0x01].
Definition handshake : list uchar := [0x80; 0x02].
Definition switchBaudrate : list uchar := [0x80; 0x03].
Definition HIDOnlyMode : list uchar := [0x80; 0x04].
Definition enable : list uchar := [0x01].
Definition rumbleCommand : uchar := 0x48.
Definition imuDataCommand : uchar := 0x40.
Definition ledCommand : uchar := 0x30.
Definition led : list uchar := [0x1].
Definition getInput : uchar := 0x1f.
Definition empty : list uchar := [].
(* static const in ~Controller *)
Definition disconnect : list uchar := [0x80; 0x05].
End Wire.

(** ** The input packet *)

Record InputPacket : Type := mkInputPacket {
  header : list uchar;        (* uint8_t header[8]  *)
  unknown : list uchar;       (* uint8_t unknown[5] *)
  rightButtons : uchar;
  middleButtons : uchar;
  leftButtons : uchar;
  sticks : list uchar         (* uint8_t sticks[6]  *)
}.

(** Every member is a [uint8_t] or an array of them, so the members lie one
    after the other without padding. *)
Definition sizeof_InputPacket : nat := (8 + 5 + 1 + 1 + 1 + 6)%nat.

(** [src[i]] of a raw read: out of bounds is undefined behaviour. *)
Definition read_byte (src : list uchar) (i : nat) : outcome uchar :=
  match src !! i with
  | Some b => Ret b
  | None => Undefined
  end.

(** The [n] bytes of [src] from offset [off] on, each one read. *)
Fixpoint read_bytes (src : list uchar) (off n : nat) : outcome (list uchar) :=
  match n with
  | O => Ret []
  | S n' =>
      b ← read_byte src off;
      bs ← read_bytes src (S off) n';
      Ret (b :: bs)
  end.

(** [memcpy(&p, src, sizeof(InputPacket))]: reads the first
    [sizeof_InputPacket] bytes of [src] and lays them over the members of
    [p] in declaration order. *)
Definition memcpy_InputPacket (src : list uchar) : outcome InputPacket :=
  raw ← read_bytes src 0 sizeof_InputPacket;
  Ret {| header := take 8 raw;
          unknown := take 5 (drop 8 raw);
          rightButtons := default 0 (raw !! 13%nat);
          middleButtons := default 0 (raw !! 14%nat);
          leftButtons := default 0 (raw !! 15%nat);
          sticks := take 6 (drop 16 raw) |}.

(** [a[i]] on a member array; the indices of the source are literals
    within the array. *)
Definition subscript (a : list uchar) (i : nat) : uchar := default 0 (a !! i).

(** ** Axis normaliser (lines 88-98) *)

Module Axis.
Definition prec : Z := 53.
Definition emax : Z := 1024.
Definition double := spec_float.

(** Conversion of an integer to [double] (exact below 2^53). *)
Definition of_int (z : Z) : double := binary_normalize prec emax z 0 false.

Definition dadd : double -> double -> double := SFadd prec emax.
Definition dsub : double -> double -> double := SFsub prec emax.
Definition dmul : double -> double -> double := SFmul prec emax.
Definition ddiv : double -> double -> double := SFdiv prec emax.

(** [(1.0 - t) * min + t * max] *)
Definition lerp (min max t : double) : double :=
  dadd (dmul (dsub (of_int 1) t) min) (dmul t max).

(** [std::clamp(v, lo, hi)]: [(v < lo) ? lo : (hi < v) ? hi : v] *)
Definition clamp (v lo hi : double) : double :=
  if SFltb v lo then lo else if SFltb hi v then hi else v.

(** The integer part of a finite [double], rounded toward zero. *)
Definition truncate (d : double) : option Z :=
  match d with
  | S754_zero _ => Some 0
  | S754_finite s m e =>
      let a := if 0 <=? e then Z.pos m * 2 ^ e else Z.pos m / 2 ^ (- e) in
      Some (if s then - a else a)
  | S754_infinity _ | S754_nan => None
  end.

(** [static_cast<short>(d)]: truncation; undefined when the truncated
    value is not a [short]. *)
Definition static_cast_short (d : double) : outcome Z :=
  match truncate d with
  | Some z => if (short_min <=? z) && (z <=? short_max) then Ret z else Undefined
  | None => Undefined
  end.

Definition expandUChar (c : uchar) : outcome Z :=
  let ucmax := uchar_max in
  let smax := short_max in
  let smin := short_min in
  let d := clamp (ddiv (of_int c) (of_int ucmax)) (of_int 0) (of_int 1) in
  static_cast_short (lerp (of_int smin) (of_int smax) d).
End Axis.

(** ** Buttons and the declarations taken from [Controller.hpp] *)

(** [enum class Button]: the enumerators that [Controller.cpp] names, and
    [other] for a value of the enumeration type that is none of them (what
    the [default:] branches of the switches receive). *)
Module Button.
Inductive t : Type :=
| A | B | X | Y | LStick | RStick | L | LZ | R | RZ | Home | Share
| Plus | Minus | DPadDown | DPadUp | DPadLeft | DPadRight | None
| other (raw : Z).

#[global] Instance eq_dec : EqDecision t.
Proof. solve_decision. Defined.

#[global] Instance inhabited : Inhabited t := populate None.
End Button.

(** [enum class ButtonSource], with [other] as for [Button]. *)
Module ButtonSource.
Inductive t : Type :=
| Left | Middle | Right
| other (raw : Z).
End ButtonSource.

(** What [Controller.cpp] uses of [Controller.hpp]: the product id of the
    Pro Controller and the three bit tables, each a
    [std::array<Button, 8>]. *)
Record Hpp : Type := mkHpp {
  Procon_ID : Z;
  JoyconLBitmap : list Button.t;
  JoyconMidBitmap : list Button.t;
  JoyconRBitmap : list Button.t;
  JoyconLBitmap_size : length JoyconLBitmap = 8%nat;
  JoyconMidBitmap_size : length JoyconMidBitmap = 8%nat;
  JoyconRBitmap_size : length JoyconRBitmap = 8%nat
}.

(** The virtual controller's report ([XUSB_REPORT] of the ViGEm client). *)
Record XUSB_REPORT : Type := mkReport {
  wButtons : Z;         (* USHORT *)
  bLeftTrigger : Z;     (* BYTE *)
  bRightTrigger : Z;    (* BYTE *)
  sThumbLX : Z;         (* SHORT *)
  sThumbLY : Z;
  sThumbRX : Z;
  sThumbRY : Z
}.

(** [XUSB_REPORT report{}] *)
Definition zero_report : XUSB_REPORT :=
  {| wButtons := 0; bLeftTrigger := 0; bRightTrigger := 0;
     sThumbLX := 0; sThumbLY := 0; sThumbRX := 0; sThumbRY := 0 |}.

Module Mapping.

(** Lines 166-177. *)
Definition getButtonMap (hpp : Hpp) (s : ButtonSource.t) : outcome (list Button.t) :=
  match s with
  | ButtonSource.Left => Ret (JoyconLBitmap hpp)
  | ButtonSource.Middle => Ret (JoyconMidBitmap hpp)
  | ButtonSource.Right => Ret (JoyconRBitmap hpp)
  | ButtonSource.other _ =>
      Throw (logic_error "Unknown ButtonSource passed to getButtonMap")
  end.

(** [map[i]] on the table; past its end is undefined behaviour. *)
Definition table_at (map : list Button.t) (i : nat) : outcome Button.t :=
  match map !! i with
  | Some b => Ret b
  | None => Undefined
  end.

(** [(c & (1 << i)) != 0] *)
Definition bit_set (c : uchar) (i : nat) : bool :=
  negb (Z.land c (Z.shiftl 1 (Z.of_nat i)) =? 0).

(** The loop of lines 181-184 from index [i] on, with [n] iterations
    left. *)
Fixpoint pull_loop (map : list Button.t) (c : uchar) (i n : nat)
    (out : list (Button.t * bool)) : outcome (list (Button.t * bool)) :=
  match n with
  | O => Ret out
  | S n' =>
      b ← table_at map i;
      if decide (b = Button.None)
      then pull_loop map c (S i) n' out
      else pull_loop map c (S i) n' (out ++ [(b, bit_set c i)])
  end.

(** Lines 179-185; [out] is threaded through. *)
Definition pullButtonsFromByte (hpp : Hpp) (c : uchar) (src : ButtonSource.t)
    (out : list (Button.t * bool)) : outcome (list (Button.t * bool)) :=
  map ← getButtonMap hpp src;
  pull_loop map c 0 8 out.

(** Lines 187-222. *)
Definition buttonToReportBits (b : Button.t) : Z :=
  match b with
  | Button.DPadUp => 0x0001
  | Button.DPadDown => 0x0002
  | Button.DPadLeft => 0x0004
  | Button.DPadRight => 0x0008
  | Button.Plus => 0x0010
  | Button.Minus => 0x0020
  | Button.LStick => 0x0040
  | Button.RStick => 0x0080
  | Button.L => 0x0100
  | Button.R => 0x0200
  | Button.Home => 0x0400
  | Button.A => 0x1000
  | Button.B => 0x2000
  | Button.X => 0x4000
  | Button.Y => 0x8000
  | _ => 0x0000
  end.

(** Lines 224-236. [wButtons |= bits] is computed in [int] and stored
    back into the [USHORT]. *)
Definition mapButtonToReport (b : Button.t) (report : XUSB_REPORT) : XUSB_REPORT :=
  match b with
  | Button.LZ =>
      {| wButtons := wButtons report; bLeftTrigger := BYTE_max;
         bRightTrigger := bRightTrigger report;
         sThumbLX := sThumbLX report; sThumbLY := sThumbLY report;
         sThumbRX := sThumbRX report; sThumbRY := sThumbRY report |}
  | Button.RZ =>
      {| wButtons := wButtons report; bLeftTrigger := bLeftTrigger report;
         bRightTrigger := BYTE_max;
         sThumbLX := sThumbLX report; sThumbLY := sThumbLY report;
         sThumbRX := sThumbRX report; sThumbRY := sThumbRY report |}
  | _ =>
      {| wButtons := to_ushort (Z.lor (wButtons report) (buttonToReportBits b));
         bLeftTrigger := bLeftTrigger report;
         bRightTrigger := bRightTrigger report;
         sThumbLX := sThumbLX report; sThumbLY := sThumbLY report;
         sThumbRX := sThumbRX report; sThumbRY := sThumbRY report |}
  end.

(** The four locals of lines 239-242; the [int] value of each expression
    is converted to [uchar]. *)
Definition LeftX (p : InputPacket) : uchar :=
  to_uchar (Z.lor (Z.shiftl (Z.land (subscript (sticks p) 1) 0x0F) 4)
                  (Z.shiftr (Z.land (subscript (sticks p) 0) 0xF0) 4)).
Definition LeftY (p : InputPacket) : uchar := subscript (sticks p) 2.
Definition RightX (p : InputPacket) : uchar :=
  to_uchar (Z.lor (Z.shiftl (Z.land (subscript (sticks p) 4) 0x0F) 4)
                  (Z.shiftr (Z.land (subscript (sticks p) 3) 0xF0) 4)).
Definition RightY (p : InputPacket) : uchar := subscript (sticks p) 5.

(** The loop of lines 256-264. *)
Definition press (report : XUSB_REPORT) (pair : Button.t * bool) : XUSB_REPORT :=
  if snd pair then mapButtonToReport (fst pair) report else report.

(** Lines 238-269 (the [_DEBUG] printing apart). *)
Definition mapInputToReport (hpp : Hpp) (p : InputPacket) (report : XUSB_REPORT)
    : outcome XUSB_REPORT :=
  lx ← Axis.expandUChar (LeftX p);
  ly ← Axis.expandUChar (LeftY p);
  rx ← Axis.expandUChar (RightX p);
  ry ← Axis.expandUChar (RightY p);
  let report :=
    {| wButtons := wButtons report; bLeftTrigger := bLeftTrigger report;
       bRightTrigger := bRightTrigger report;
       sThumbLX := lx; sThumbLY := ly; sThumbRX := rx; sThumbRY := ry |} in
  buttons ← pullButtonsFromByte hpp (leftButtons p) ButtonSource.Left [];
  buttons ← pullButtonsFromByte hpp (rightButtons p) ButtonSource.Right buttons;
  buttons ← pullButtonsFromByte hpp (middleButtons p) ButtonSource.Middle buttons;
  Ret (foldl press report buttons).

End Mapping.

(** ** The external collaborators: hidapi and the ViGEm client *)

Inductive VIGEM_TARGET_STATE : Type :=
| VIGEM_TARGET_NEW
| VIGEM_TARGET_INITIALIZED
| VIGEM_TARGET_CONNECTED
| VIGEM_TARGET_DISCONNECTED.

#[global] Instance VIGEM_TARGET_STATE_eq_dec : EqDecision VIGEM_TARGET_STATE.
Proof. solve_decision. Defined.

Record VIGEM_TARGET : Type := mkTarget {
  Size : Z;
  SerialNo : Z;
  State : VIGEM_TARGET_STATE;
  VendorId : Z;
  ProductId : Z
}.

Inductive VIGEM_TARGET_TYPE : Type :=
| Xbox360Wired
| XboxOneWired
| DualShock4Wired.

Inductive VIGEM_ERROR : Type :=
| VIGEM_ERROR_NONE
| VIGEM_ERROR_code (code : Z).

#[global] Instance VIGEM_ERROR_eq_dec : EqDecision VIGEM_ERROR.
Proof. solve_decision. Defined.

(** An open device handle ([hid_device *], not null). *)
Definition hid_device := nat.

Record hid_device_info : Type := mkDevInfo {
  product_id : Z;
  path : string
}.

(** The calls that leave the program, in the order they are made. *)
Inductive event : Type :=
| hid_open_path (p : string)
| hid_close (h : hid_device)
| exchange (h : hid_device) (msg : list uchar)
| sendCommand (h : hid_device) (command : uchar) (data : list uchar)
| sendSubcommand (h : hid_device) (id command : uchar) (data : list uchar)
| clock_now
| sleep_for (milliseconds : Z)
| vigem_target_plugin (type : VIGEM_TARGET_TYPE) (t : VIGEM_TARGET)
| vigem_target_unplug (t : VIGEM_TARGET)
| vigem_register_xusb_notification (t : VIGEM_TARGET)
| vigem_xusb_submit_report (t : VIGEM_TARGET) (report : XUSB_REPORT)
| cout_vigem_error (err : VIGEM_ERROR).

(** What the collaborators answer; each oracle sees the trace of the
    calls made before. [exchange] and [sendCommand] answer with the bytes
    received, or nothing on failure. *)
Record Env : Type := mkEnv {
  VIGEM_TARGET_INIT : VIGEM_TARGET -> VIGEM_TARGET;
  open_path_result : list event -> string -> option hid_device;
  exchange_result : list event -> hid_device -> list uchar -> option (list uchar);
  sendCommand_result :
    list event -> hid_device -> uchar -> list uchar -> option (list uchar);
  now : list event -> Z;
  plugin_result : list event -> VIGEM_TARGET -> VIGEM_ERROR * VIGEM_TARGET;
  unplug_result : list event -> VIGEM_TARGET -> VIGEM_TARGET;
  submit_result : list event -> VIGEM_TARGET -> XUSB_REPORT -> VIGEM_ERROR
}.

(** ** Controllers, the registry, and the state of the process *)

Definition addr := nat.

Record Controller : Type := mkController {
  vController : VIGEM_TARGET;
  device : option hid_device;      (* unique_ptr<hid_device, HIDCloser> *)
  lastCommand : Z;
  currentLed : uchar;
  largeMotor : uchar;
  smallMotor : uchar
}.

Record World : Type := mkWorld {
  heap : gmap addr Controller;     (* the live Controller objects *)
  controllers : list addr;         (* vector<reference_wrapper<Controller>> *)
  trace : list event
}.

(** Stateful calls: the world reached is kept whatever the outcome, since
    a throw does not undo what was done before it. *)
Definition M (A : Type) : Type := World -> World * outcome A.

Definition mret_M {A : Type} (a : A) : M A := fun w => (w, Ret a).
Definition mbind_M {A B : Type} (k : A -> M B) (m : M A) : M B :=
  fun w =>
    match m w with
    | (w', Ret a) => k a w'
    | (w', Throw e) => (w', Throw e)
    | (w', Undefined) => (w', Undefined)
    end.
#[global] Instance M_ret : MRet M := @mret_M.
#[global] Instance M_bind : MBind M := @mbind_M.

Definition skip : M unit := mret_M tt.
Definition throw {A : Type} (e : exception) : M A := fun w => (w, Throw e).
Definition lift {A : Type} (o : outcome A) : M A := fun w => (w, o).
Definition get_trace : M (list event) := fun w => (w, Ret (trace w)).
Definition emit (e : event) : M unit :=
  fun w => ({| heap := heap w; controllers := controllers w;
               trace := trace w ++ [e] |}, Ret tt).

(** [*this] or [r.get()]: the object a reference designates; a reference
    to an object that is gone is undefined behaviour. *)
Definition deref (a : addr) : M Controller :=
  fun w => match heap w !! a with
           | Some c => (w, Ret c)
           | None => (w, Undefined)
           end.
Definition store (a : addr) (c : Controller) : M unit :=
  fun w => ({| heap := <[a := c]> (heap w); controllers := controllers w;
               trace := trace w |}, Ret tt).

Definition set_vController (t : VIGEM_TARGET) (c : Controller) : Controller :=
  {| vController := t; device := device c; lastCommand := lastCommand c;
     currentLed := currentLed c; largeMotor := largeMotor c;
     smallMotor := smallMotor c |}.
Definition set_device (d : option hid_device) (c : Controller) : Controller :=
  {| vController := vController c; device := d; lastCommand := lastCommand c;
     currentLed := currentLed c; largeMotor := largeMotor c;
     smallMotor := smallMotor c |}.
Definition set_lastCommand (t : Z) (c : Controller) : Controller :=
  {| vController := vController c; device := device c; lastCommand := t;
     currentLed := currentLed c; largeMotor := largeMotor c;
     smallMotor := smallMotor c |}.
Definition set_feedback (led large small : uchar) (c : Controller) : Controller :=
  {| vController := vController c; device := device c;
     lastCommand := lastCommand c;
     currentLed := led; largeMotor := large; smallMotor := small |}.

Module Session.
Section WithEnv.
Context (E : Env) (hpp : Hpp).

(** *** Calls on the collaborators *)

Definition do_exchange (h : hid_device) (msg : list uchar) : M (option (list uchar)) :=
  tr ← get_trace;
  emit (exchange h msg);;
  mret (exchange_result E tr h msg).

Definition do_sendCommand (h : hid_device) (command : uchar) (data : list uchar)
    : M (option (list uchar)) :=
  tr ← get_trace;
  emit (sendCommand h command data);;
  mret (sendCommand_result E tr h command data).

Definition do_sendSubcommand (h : hid_device) (id command : uchar)
    (data : list uchar) : M unit :=
  emit (sendSubcommand h id command data).

(** [HIDCloser::operator()] (lines 23-26). *)
Definition HIDCloser (ptr : option hid_device) : M unit :=
  match ptr with
  | Some h => emit (hid_close h)
  | None => skip
  end.

(** [device.reset(p)] on the controller at [a]: the new pointer is stored,
    then the old one goes to the deleter. *)
Definition device_reset (a : addr) (p : option hid_device) : M unit :=
  c ← deref a;
  store a (set_device p c);;
  HIDCloser (device c).

(** *** Constructor (lines 28-32)

    The object is built at [a] over [storage]. The initialiser list names
    [vController] and [device]; [lastCommand], a time point, is
    default-constructed (the clock's epoch, 0); the three feedback
    members, plain [uchar]s, are left as the storage has them. *)
Definition zero_target : VIGEM_TARGET :=
  {| Size := 0; SerialNo := 0; State := VIGEM_TARGET_NEW;
     VendorId := 0; ProductId := 0 |}.

Definition Controller_ctor (a : addr) (storage : Controller) : M unit :=
  fun w =>
    match heap w !! a with
    | Some _ => (w, Undefined)
    | None =>
        let c := set_lastCommand 0
                   (set_device None
                      (set_vController (VIGEM_TARGET_INIT E zero_target) storage)) in
        ({| heap := <[a := c]> (heap w);
            controllers := controllers w ++ [a];
            trace := trace w |}, Ret tt)
    end.

(** *** Destructor (lines 35-53) *)

(** [find_if] with [*this == other.get()], that is address equality
    (lines 55-57), then [erase] of the position found. *)
Fixpoint erase_first (a : addr) (l : list addr) : list addr :=
  match l with
  | [] => []
  | x :: l' => if decide (a = x) then l' else x :: erase_first a l'
  end.

Definition unplug_if_connected (a : addr) : M unit :=
  c ← deref a;
  if decide (State (vController c) = VIGEM_TARGET_CONNECTED)
  then
    tr ← get_trace;
    emit (vigem_target_unplug (vController c));;
    store a (set_vController (unplug_result E tr (vController c)) c)
  else skip.

Definition disconnect_if_open (a : addr) : M unit :=
  c ← deref a;
  match device c with
  | Some h => do_exchange h Wire.disconnect;; skip
  | None => skip
  end.

Definition deregister (a : addr) : M unit :=
  fun w => ({| heap := heap w; controllers := erase_first a (controllers w);
               trace := trace w |}, Ret tt).

(** After the body, the members are destroyed ([device] through
    [HIDCloser]) and the storage is released. *)
Definition release (a : addr) : M unit :=
  fun w => ({| heap := delete a (heap w); controllers := controllers w;
               trace := trace w |}, Ret tt).

Definition destroy_members (a : addr) : M unit :=
  c ← deref a;
  HIDCloser (device c);;
  release a.

Definition Controller_dtor (a : addr) : M unit :=
  unplug_if_connected a;;
  disconnect_if_open a;;
  deregister a;;
  destroy_members a.

(** *** Feedback callback (lines 99-123) *)

Definition targetEquals (lhs rhs : VIGEM_TARGET) : bool :=
  (ProductId lhs =? ProductId rhs) &&
  (SerialNo lhs =? SerialNo rhs) &&
  bool_decide (State lhs = State rhs) &&
  (VendorId lhs =? VendorId rhs).

(** [find_if] over the registry: each reference is followed until one
    matches. *)
Fixpoint find_target (h : gmap addr Controller) (t : VIGEM_TARGET)
    (rs : list addr) : outcome (option addr) :=
  match rs with
  | [] => Ret None
  | r :: rs' =>
      match h !! r with
      | Some c =>
          if targetEquals (vController c) t then Ret (Some r)
          else find_target h t rs'
      | None => Undefined
      end
  end.

Definition find_in_registry (t : VIGEM_TARGET) : M (option addr) :=
  fun w => (w, find_target (heap w) t (controllers w)).

Definition vigemCallback (t : VIGEM_TARGET) (LargeMotor SmallMotor LEDNumber : uchar)
    : M unit :=
  it ← find_in_registry t;
  match it with
  | Some a =>
      con ← deref a;
      store a (set_feedback LEDNumber LargeMotor SmallMotor con)
  | None => skip
  end.

(** *** [openDevice] (lines 124-156) *)

Definition openDevice (a : addr) (dev : option hid_device_info) : M unit :=
  match dev with
  | None =>
      throw (ControllerException "Unable to open controller device: dev was nullptr.")
  | Some d =>
      if negb (product_id d =? Procon_ID hpp)
      then throw (ControllerException
             "Unable to open controller device: product id was not a Switch Pro Controller.")
      else
        tr ← get_trace;
        emit (hid_open_path (path d));;
        device_reset a (open_path_result E tr (path d));;
        c ← deref a;
        match device c with
        | None =>
            throw (ControllerException
              "Unable to open controller device: device path could not be opened.")
        | Some h =>
            ack ← do_exchange h Wire.handshake;
            if negb (bool_decide (is_Some ack))
            then throw (ControllerException "Handshake failed.")
            else
              do_exchange h Wire.switchBaudrate;;
              do_exchange h Wire.handshake;;
              do_exchange h Wire.HIDOnlyMode;;
              tr ← get_trace;
              emit clock_now;;
              c ← deref a;
              store a (set_lastCommand (now E tr) c);;
              do_sendSubcommand h 0x1 Wire.rumbleCommand Wire.enable;;
              do_sendSubcommand h 0x1 Wire.imuDataCommand Wire.enable;;
              do_sendSubcommand h 0x1 Wire.ledCommand Wire.led;;
              tr ← get_trace;
              c ← deref a;
              emit (vigem_target_plugin Xbox360Wired (vController c));;
              let r := plugin_result E tr (vController c) in
              store a (set_vController (snd r) c);;
              if negb (bool_decide (fst r = VIGEM_ERROR_NONE))
              then
                device_reset a None;;
                throw (ControllerException "Unable to plugin ViGEm controller.")
              else
                emit (sleep_for 100);;
                c ← deref a;
                emit (vigem_register_xusb_notification (vController c));;
                emit (sleep_for 100)
        end
  end.

(** *** [pollInput] (lines 274-292) *)

Definition pollInput (a : addr) : M unit :=
  c ← deref a;
  match device c with
  | None => skip
  | Some h =>
      let report := zero_report in
      dat ← do_sendCommand h Wire.getInput Wire.empty;
      match dat with
      | None => throw (ControllerException "Error sending getInput command.")
      | Some value =>
          b0 ← lift (read_byte value 0);
          if negb (b0 =? 0x30)
          then
            p ← lift (memcpy_InputPacket value);
            report ← lift (Mapping.mapInputToReport hpp p report);
            tr ← get_trace;
            emit (vigem_xusb_submit_report (vController c) report);;
            let err := submit_result E tr (vController c) report in
            if negb (bool_decide (err = VIGEM_ERROR_NONE))
            then emit (cout_vigem_error err)
            else skip
          else skip
      end
  end.

(** [Controller::connected] (lines 294-296). *)
Definition connected (c : Controller) : bool :=
  bool_decide (State (vController c) = VIGEM_TARGET_CONNECTED).

End WithEnv.
End Session.

(** ** Concrete instances

    Tables, collaborators and worlds on which the operations are run in
    the examples. The tables are one possible content of the header's
    arrays; the theorems hold for every content. *)

Module Sample.

Definition hpp : Hpp :=
  {| Procon_ID := 0x2009;
     JoyconLBitmap :=
       [Button.DPadDown; Button.DPadUp; Button.DPadRight; Button.DPadLeft;
        Button.None; Button.None; Button.L; Button.LZ];
     JoyconMidBitmap :=
       [Button.Minus; Button.Plus; Button.RStick; Button.LStick;
        Button.Home; Button.Share; Button.None; Button.other 7];
     JoyconRBitmap :=
       [Button.Y; Button.X; Button.B; Button.A;
        Button.None; Button.None; Button.R; Button.RZ];
     JoyconLBitmap_size := eq_refl;
     JoyconMidBitmap_size := eq_refl;
     JoyconRBitmap_size := eq_refl |}.

Definition target (serial : Z) (st : VIGEM_TARGET_STATE) : VIGEM_TARGET :=
  {| Size := 20; SerialNo := serial; State := st;
     VendorId := 0x045E; ProductId := 0x028E |}.

Definition session (serial : Z) (st : VIGEM_TARGET_STATE)
    (d : option hid_device) : Controller :=
  {| vController := target serial st; device := d; lastCommand := 0;
     currentLed := 0; largeMotor := 0; smallMotor := 0 |}.

(** A 22-byte input report: type [0x3f], button [A] held, sticks
    [0x34,0x05,0x78,0x9A,0x0B,0xCD]. *)
Definition report_bytes : list uchar :=
  [0x3f; 0; 0; 0; 0; 0; 0; 0;  0; 0; 0; 0; 0;  0x08; 0; 0;
   0x34; 0x05; 0x78; 0x9A; 0x0B; 0xCD].

(** The collaborators: [ack] is what every [exchange] answers, [input]
    what [sendCommand] answers, [plug] the code returned by the plug-in
    (a successful one connects the target and gives it serial 1). *)
Definition env (ack input : option (list uchar)) (plug : VIGEM_ERROR) : Env :=
  {| VIGEM_TARGET_INIT := fun t =>
       {| Size := 20; SerialNo := SerialNo t; State := VIGEM_TARGET_INITIALIZED;
          VendorId := VendorId t; ProductId := ProductId t |};
     open_path_result := fun _ _ => Some 1%nat;
     exchange_result := fun _ _ _ => ack;
     sendCommand_result := fun _ _ _ _ => input;
     now := fun tr => Z.of_nat (length tr);
     plugin_result := fun _ t =>
       match plug with
       | VIGEM_ERROR_NONE =>
           (plug, {| Size := Size t; SerialNo := 1;
                     State := VIGEM_TARGET_CONNECTED;
                     VendorId := VendorId t; ProductId := ProductId t |})
       | _ => (plug, t)
       end;
     unplug_result := fun _ t =>
       {| Size := Size t; SerialNo := SerialNo t;
          State := VIGEM_TARGET_DISCONNECTED;
          VendorId := VendorId t; ProductId := ProductId t |};
     submit_result := fun _ _ _ => VIGEM_ERROR_NONE |}.

Definition ok : option (list uchar) := Some [0x81; 0x02].

Definition empty_world : World :=
  {| heap := ∅; controllers := []; trace := [] |}.

(** Two live sessions, at addresses 1 and 2, both plugged in. *)
Definition two_sessions : World :=
  {| heap := <[2%nat := session 2 VIGEM_TARGET_CONNECTED (Some 12%nat)]>
               (<[1%nat := session 1 VIGEM_TARGET_CONNECTED (Some 11%nat)]> ∅);
     controllers := [1%nat; 2%nat];
     trace := [] |}.

Definition pro_controller : hid_device_info :=
  {| product_id := 0x2009; path := "usb-1" |}.

(** The storage a controller is built over. *)
Definition storage : Controller := session 0 VIGEM_TARGET_NEW None.

(** The world after [Controller()] at address 1, and nothing else. *)
Definition fresh (E : Env) : World :=
  fst (Session.Controller_ctor E 1%nat storage empty_world).

(** [Controller()] at address 1 followed by [openDevice]. *)
Definition establish (E : Env) (dev : option hid_device_info) : World * outcome unit :=
  (Session.Controller_ctor E 1%nat storage ≫= fun _ =>
     Session.openDevice E hpp 1%nat dev) empty_world.

End Sample.

(** ** Vocabulary of the statements *)


(** The exact value of the interpolation at [c] is [257 * c - 32768];
    [near_exact c] says that [expandUChar c] is defined and within one of
    it. *)
Definition near_exact (c : Z) : bool :=
  match Axis.expandUChar c with
  | Ret v => (257 * c - 32768 - 1 <=? v) && (v <=? 257 * c - 32768 + 1)
  | _ => false
  end.

(** The slots [i .. i + n - 1] of a table that hold a button. *)
Definition live_slots (map : list Button.t) (i n : nat) : list nat :=
  filter (fun j => map !!! j <> Button.None) (seq i n).

(** What slot [i] contributes for the byte [c]. *)
Definition slot_pair (map : list Button.t) (c : uchar) (i : nat) : Button.t * bool :=
  (map !!! i, Z.testbit c (Z.of_nat i)).

(** What [device.reset] hands to the deleter. *)
Definition closing (old : option hid_device) : list event :=
  match old with
  | Some h => [hid_close h]
  | None => []
  end.

(** The first argument of each [sendSubcommand] call of a trace, in call
    order. *)
Definition subcommand_ids (tr : list event) : list uchar :=
  omap (fun e => match e with
                 | sendSubcommand _ id _ _ => Some id
                 | _ => None
                 end) tr.

(** The messages of the handshake, from the first [exchange] to the last
    [sendSubcommand]. *)
Definition handshake_calls (h : hid_device) : list event :=
  [exchange h [0x80; 0x02];
   exchange h [0x80; 0x03];
   exchange h [0x80; 0x02];
   exchange h [0x80; 0x04];
   clock_now;
   sendSubcommand h 0x01 0x48 [0x01];
   sendSubcommand h 0x01 0x40 [0x01];
   sendSubcommand h 0x01 0x30 [0x01]].

(** The buttons that [buttonToReportBits] has a [case] for. *)
Definition in_output_domain (b : Button.t) : bool :=
  match b with
  | Button.DPadUp | Button.DPadDown | Button.DPadLeft | Button.DPadRight
  | Button.Plus | Button.Minus | Button.LStick | Button.RStick
  | Button.L | Button.R | Button.Home
  | Button.A | Button.B | Button.X | Button.Y => true
  | _ => false
  end.

(** The buttons that [mapButtonToReport] turns into a trigger axis. *)
Definition is_trigger (b : Button.t) : bool :=
  match b with
  | Button.LZ | Button.RZ => true
  | _ => false
  end.

(** ** Button names (lines 301-368) *)

Module Names.
Definition buttonA : string := "A".
Definition buttonB : string := "B".
Definition buttonX : string := "X".
Definition buttonY : string := "Y".
Definition buttonLStick : string := "Left Stick".
Definition buttonRStick : string := "Right Stick".
Definition buttonL : string := "L".
Definition buttonR : string := "R".
Definition buttonLZ : string := "LZ".
Definition buttonRZ : string := "RZ".
Definition buttonHome : string := "Home".
Definition buttonShare : string := "Share".
Definition buttonPlus : string := "Plus".
Definition buttonMinus : string := "Minus".
Definition buttonDPUp : string := "DPad Up".
Definition buttonDPLeft : string := "DPad Left".
Definition buttonDPRight : string := "DPad Right".
Definition buttonDPDown : string := "DPad Down".
Definition buttonNone : string := "None".
Definition buttonUnknown : string := "Unknown".
End Names.

(** [Procon::buttonToString] (lines 325-368). *)
Definition buttonToString (b : Button.t) : string :=
  match b with
  | Button.A => Names.buttonA
  | Button.B => Names.buttonB
  | Button.X => Names.buttonX
  | Button.Y => Names.buttonY
  | Button.LStick => Names.buttonLStick
  | Button.RStick => Names.buttonRStick
  | Button.L => Names.buttonL
  | Button.LZ => Names.buttonLZ
  | Button.R => Names.buttonR
  | Button.RZ => Names.buttonRZ
  | Button.Home => Names.buttonHome
  | Button.Share => Names.buttonShare
  | Button.Plus => Names.buttonPlus
  | Button.Minus => Names.buttonMinus
  | Button.DPadDown => Names.buttonDPDown
  | Button.DPadUp => Names.buttonDPUp
  | Button.DPadLeft => Names.buttonDPLeft
  | Button.DPadRight => Names.buttonDPRight
  | Button.None => Names.buttonNone
  | Button.other _ => Names.buttonUnknown
  end.

(** ** Further vocabulary *)

(** The enumerators of [Button], as opposed to the other values of the
    enumeration type. *)
Definition is_enumerator (b : Button.t) : bool :=
  match b with
  | Button.other _ => false
  | _ => true
  end.

(** Some pair of [bs] is held and satisfies [f]. *)
Definition some_held (f : Button.t -> bool) (bs : list (Button.t * bool)) : bool :=
  existsb (fun pair => snd pair && f (fst pair)) bs.

(** The registry holds the live controllers, each once. *)
Definition registry_ok (w : World) : Prop :=
  NoDup (controllers w) /\
  forall r : addr, r ∈ controllers w <-> is_Some (heap w !! r).

(** What a submission adds to the trace: the call, and the line on stdout
    when the call reports an error. *)
Definition submission (E : Env) (tr : list event) (t : VIGEM_TARGET)
    (report : XUSB_REPORT) : list event :=
  vigem_xusb_submit_report t report
  :: match submit_result E tr t report with
     | VIGEM_ERROR_NONE => []
     | err => [cout_vigem_error err]
     end.

(** The calls the destructor of [c] makes: the unplug when the virtual
    controller is connected, then the disconnect sequence and the closing
    of the handle when the device is open. *)
Definition teardown_calls (c : Controller) : list event :=
  (if decide (State (vController c) = VIGEM_TARGET_CONNECTED)
   then [vigem_target_unplug (vController c)] else [])
  ++ match device c with
     | Some h => [exchange h [0x80; 0x05]; hid_close h]
     | None => []
     end.

(** The object [Controller()] builds over [storage]. *)
Definition constructed (E : Env) (storage : Controller) : Controller :=
  set_lastCommand 0
    (set_device None
       (set_vController (VIGEM_TARGET_INIT E Session.zero_target) storage)).

(** Some slot of the table [map] whose bit is set in [c] holds a button
    that satisfies [f]. *)
Definition held_in (map : list Button.t) (c : uchar) (f : Button.t -> bool) : bool :=
  existsb (fun i : nat => Z.testbit c (Z.of_nat i) && f (map !!! i)) (seq 0 8).

(** * Properties *)

(** ** Tactics and general facts *)

(** Unfolds the sequencing of [outcome] computations. *)
Ltac unfold_outcome :=
  unfold mbind, mret, outcome_bind, outcome_ret, obind in *.

(** Unfolds the sequencing of stateful computations. *)
Ltac unfold_M :=
  unfold mbind, mret, M_bind, M_ret, mbind_M, mret_M, skip, throw, lift,
    get_trace, emit, deref, store in *.

Lemma to_uchar_id (z : Z) : 0 <= z < 256 -> to_uchar z = z.
Proof. intros Hz. unfold to_uchar. apply Z.mod_small. lia. Qed.

(** ** Stick decoding *)

Section Sticks.

(** A nibble moved to the high half combined with a high nibble moved to
    the low half is a byte. *)
Lemma nibbles_byte (hi lo : Z) :
  0 <= Z.lor (Z.shiftl (Z.land hi 0x0F) 4) (Z.shiftr (Z.land lo 0xF0) 4) < 256.
Proof.
  assert (Hh : 0 <= Z.land hi 0x0F < 16).
  { split; [apply Z.land_nonneg; lia|].
    change 0x0F with (Z.ones 4). rewrite Z.land_ones by lia.
    apply Z.mod_pos_bound. lia. }
  assert (Hl : 0 <= Z.land lo 0xF0 < 256).
  { split; [apply Z.land_nonneg; lia|].
    assert (H : Z.land lo 0xF0 = Z.land (Z.land lo 0xF0) (Z.ones 8)).
    { rewrite <- Z.land_assoc. reflexivity. }
    rewrite H, Z.land_ones by lia. apply Z.mod_pos_bound. lia. }
  set (a := Z.shiftl (Z.land hi 0x0F) 4).
  set (b := Z.shiftr (Z.land lo 0xF0) 4).
  assert (Ha : 0 <= a < 2 ^ 8).
  { unfold a. rewrite Z.shiftl_mul_pow2 by lia. lia. }
  assert (Hb : 0 <= b < 2 ^ 8).
  { unfold b. rewrite Z.shiftr_div_pow2 by lia. split.
    - apply Z.div_pos; lia.
    - apply Z.div_lt_upper_bound; lia. }
  split; [apply Z.lor_nonneg; lia|].
  change 256 with (2 ^ 8).
  destruct (Z.eq_dec (Z.lor a b) 0) as [->|Hne]; [lia|].
  apply Z.log2_lt_pow2; [assert (0 <= Z.lor a b) by (apply Z.lor_nonneg; lia); lia|].
  rewrite Z.log2_lor by lia.
  apply Z.max_lub_lt.
  - destruct (Z.eq_dec a 0) as [->|]; [simpl; lia|]. apply Z.log2_lt_pow2; lia.
  - destruct (Z.eq_dec b 0) as [->|]; [simpl; lia|]. apply Z.log2_lt_pow2; lia.
Qed.

Lemma mapButtonToReport_axes (b : Button.t) (r : XUSB_REPORT) :
  sThumbLX (Mapping.mapButtonToReport b r) = sThumbLX r /\
  sThumbLY (Mapping.mapButtonToReport b r) = sThumbLY r /\
  sThumbRX (Mapping.mapButtonToReport b r) = sThumbRX r /\
  sThumbRY (Mapping.mapButtonToReport b r) = sThumbRY r.
Proof. destruct b; simpl; auto. Qed.

Lemma press_all_axes (bs : list (Button.t * bool)) (r : XUSB_REPORT) :
  sThumbLX (foldl Mapping.press r bs) = sThumbLX r /\
  sThumbLY (foldl Mapping.press r bs) = sThumbLY r /\
  sThumbRX (foldl Mapping.press r bs) = sThumbRX r /\
  sThumbRY (foldl Mapping.press r bs) = sThumbRY r.
Proof.
  revert r. induction bs as [|[b pressed] bs IH]; intros r; [simpl; auto|].
  simpl. destruct (IH (Mapping.press r (b, pressed))) as (H1 & H2 & H3 & H4).
  rewrite H1, H2, H3, H4. unfold Mapping.press; simpl.
  destruct pressed; [apply mapButtonToReport_axes | auto].
Qed.

(** C1. For every input packet, with stick bytes [s0 .. s5], the decoded
    samples are
    [LeftX = ((s1 & 0x0F) << 4) | ((s0 & 0xF0) >> 4)], [LeftY = s2],
    [RightX = ((s4 & 0x0F) << 4) | ((s3 & 0xF0) >> 4)], [RightY = s5]
    (the conversion to [uchar] loses nothing); the stick bytes
    [0x34,0x05,0x78,0x9A,0x0B,0xCD] decode to [0x53], [0x78], [0xB9],
    [0xCD]; and whenever [mapInputToReport] returns, the four axes of the
    report are [expandUChar] of exactly these four samples. *)
Theorem stick_samples_decoded :
  (forall hd un rb mb lb s0 s1 s2 s3 s4 s5,
      let p := mkInputPacket hd un rb mb lb [s0; s1; s2; s3; s4; s5] in
      Mapping.LeftX p
        = Z.lor (Z.shiftl (Z.land s1 0x0F) 4) (Z.shiftr (Z.land s0 0xF0) 4) /\
      Mapping.LeftY p = s2 /\
      Mapping.RightX p
        = Z.lor (Z.shiftl (Z.land s4 0x0F) 4) (Z.shiftr (Z.land s3 0xF0) 4) /\
      Mapping.RightY p = s5) /\
  (forall hd un rb mb lb,
      let p := mkInputPacket hd un rb mb lb [0x34; 0x05; 0x78; 0x9A; 0x0B; 0xCD] in
      Mapping.LeftX p = 0x53 /\ Mapping.LeftY p = 0x78 /\
      Mapping.RightX p = 0xB9 /\ Mapping.RightY p = 0xCD) /\
  (forall hpp p r r',
      Mapping.mapInputToReport hpp p r = Ret r' ->
      Axis.expandUChar (Mapping.LeftX p) = Ret (sThumbLX r') /\
      Axis.expandUChar (Mapping.LeftY p) = Ret (sThumbLY r') /\
      Axis.expandUChar (Mapping.RightX p) = Ret (sThumbRX r') /\
      Axis.expandUChar (Mapping.RightY p) = Ret (sThumbRY r')).
Proof.
  split; [|split].
  - intros hd un rb mb lb s0 s1 s2 s3 s4 s5 p.
    unfold Mapping.LeftX, Mapping.LeftY, Mapping.RightX, Mapping.RightY,
      subscript; simpl.
    rewrite !to_uchar_id by apply nibbles_byte. auto.
  - intros hd un rb mb lb p. repeat split; reflexivity.
  - intros hpp p r r' H. unfold Mapping.mapInputToReport in H. unfold_outcome.
    destruct (Axis.expandUChar (Mapping.LeftX p)) as [lx| |]; try discriminate.
    destruct (Axis.expandUChar (Mapping.LeftY p)) as [ly| |]; try discriminate.
    destruct (Axis.expandUChar (Mapping.RightX p)) as [rx| |]; try discriminate.
    destruct (Axis.expandUChar (Mapping.RightY p)) as [ry| |]; try discriminate.
    destruct (Mapping.pullButtonsFromByte hpp (leftButtons p) _ _) as [b1| |];
      try discriminate.
    destruct (Mapping.pullButtonsFromByte hpp (rightButtons p) _ _) as [b2| |];
      try discriminate.
    destruct (Mapping.pullButtonsFromByte hpp (middleButtons p) _ _) as [b3| |];
      try discriminate.
    injection H as <-.
    match goal with |- context [foldl Mapping.press ?r0 b3] =>
      destruct (press_all_axes b3 r0) as (H1 & H2 & H3 & H4) end.
    rewrite H1, H2, H3, H4. simpl. auto.
Qed.

End Sticks.

(** ** Axis normaliser *)

Section AxisNormaliser.

(** The rounded binary64 computation followed by truncation lands within
    one of the exact value, on each of the 256 samples. *)
Lemma near_exact_samples :
  forallb near_exact (map Z.of_nat (seq 0 256)) = true.
Proof. vm_compute. reflexivity. Qed.

Lemma expandUChar_near (c : Z) :
  0 <= c <= 255 ->
  exists v, Axis.expandUChar c = Ret v /\
            257 * c - 32768 - 1 <= v <= 257 * c - 32768 + 1.
Proof.
  intros Hc.
  assert (Hin : In c (map Z.of_nat (seq 0 256))).
  { apply in_map_iff. exists (Z.to_nat c). split; [lia|].
    apply in_seq. lia. }
  pose proof (proj1 (forallb_forall near_exact _) near_exact_samples c Hin) as H.
  unfold near_exact in H.
  destruct (Axis.expandUChar c) as [v| |]; try discriminate.
  exists v. split; [reflexivity|]. lia.
Qed.

(** C2. On the samples 0..255 [expandUChar] is non-decreasing, it maps 0
    to the least [short] and 255 to the greatest [short], exactly. *)
Theorem expandUChar_monotone_endpoints :
  (forall a b : uchar,
      0 <= a -> a <= b -> b <= 255 ->
      exists x y, Axis.expandUChar a = Ret x /\ Axis.expandUChar b = Ret y /\
                  x <= y) /\
  Axis.expandUChar 0 = Ret short_min /\
  Axis.expandUChar 255 = Ret short_max.
Proof.
  split; [|split; vm_compute; reflexivity].
  intros a b Ha Hab Hb.
  destruct (Z.eq_dec a b) as [->|Hne].
  - destruct (expandUChar_near b) as (v & Hv & _); [lia|].
    exists v, v. rewrite Hv. repeat split; lia.
  - destruct (expandUChar_near a) as (x & Hx & Hxr); [lia|].
    destruct (expandUChar_near b) as (y & Hy & Hyr); [lia|].
    exists x, y. repeat split; [assumption..|lia].
Qed.

End AxisNormaliser.

(** ** Button tables *)

Section ButtonBytes.

(** [(c & (1 << i)) != 0] tests bit [i] of [c]. *)
Lemma bit_set_testbit (c : uchar) (i : nat) :
  Mapping.bit_set c i = Z.testbit c (Z.of_nat i).
Proof.
  unfold Mapping.bit_set. rewrite Z.shiftl_1_l.
  destruct (Z.testbit c (Z.of_nat i)) eqn:Hbit.
  - apply negb_true_iff, Z.eqb_neq. intros H0.
    assert (Hb : Z.testbit (Z.land c (2 ^ Z.of_nat i)) (Z.of_nat i) = true).
    { rewrite Z.land_spec, Hbit, Z.pow2_bits_true by lia. reflexivity. }
    rewrite H0, Z.bits_0 in Hb. discriminate.
  - apply negb_false_iff, Z.eqb_eq. apply Z.bits_inj'. intros n Hn.
    rewrite Z.land_spec, Z.bits_0, Z.pow2_bits_eqb by lia.
    destruct (Z.eqb_spec (Z.of_nat i) n) as [<-|_].
    + rewrite Hbit. reflexivity.
    + apply andb_false_r.
Qed.

Lemma pull_loop_spec (map : list Button.t) (c : uchar) (n : nat) :
  forall (i : nat) (out : list (Button.t * bool)),
    (i + n <= length map)%nat ->
    Mapping.pull_loop map c i n out
      = Ret (out ++ (slot_pair map c <$> live_slots map i n)).
Proof.
  induction n as [|n IH]; intros i out Hlen.
  - simpl. unfold live_slots. simpl. rewrite app_nil_r. reflexivity.
  - assert (Hi : (i < length map)%nat) by lia.
    destruct (lookup_lt_is_Some_2 map i Hi) as [b Hb].
    cbn [Mapping.pull_loop]. unfold Mapping.table_at. rewrite Hb.
    unfold_outcome.
    unfold live_slots. cbn [seq]. rewrite filter_cons.
    rewrite (list_lookup_total_correct map i b Hb).
    fold (live_slots map (S i) n).
    destruct (decide (b = Button.None)) as [Heq|Hne].
    + rewrite decide_False by (intros H; apply H; exact Heq).
      apply IH. lia.
    + rewrite decide_True by exact Hne.
      rewrite IH by lia. rewrite <- app_assoc. simpl.
      unfold slot_pair at 2.
      rewrite (list_lookup_total_correct map i b Hb), bit_set_testbit.
      reflexivity.
Qed.

Lemma getButtonMap_named (hpp : Hpp) (g : ButtonSource.t) :
  g ∈ [ButtonSource.Left; ButtonSource.Middle; ButtonSource.Right] ->
  exists map, Mapping.getButtonMap hpp g = Ret map /\ length map = 8%nat.
Proof.
  intros Hg. destruct g; simpl.
  - eexists; split; [reflexivity | apply JoyconLBitmap_size].
  - eexists; split; [reflexivity | apply JoyconMidBitmap_size].
  - eexists; split; [reflexivity | apply JoyconRBitmap_size].
  - exfalso. repeat (apply elem_of_cons in Hg as [Hg|Hg]; [discriminate|]).
    inversion Hg.
Qed.

(** C5. For every byte [c] and every byte group among left, middle,
    right: the group's table is the array of that name ([JoyconLBitmap]
    for left, [JoyconMidBitmap] for middle, [JoyconRBitmap] for right),
    of eight slots, and decoding [c] against it appends, in slot order,
    exactly one pair per slot whose entry is not [None]: the slot's button
    together with bit [i] of [c]; the slots holding [None] contribute
    nothing. *)
Theorem pullButtonsFromByte_pairs (hpp : Hpp) (c : uchar)
    (out : list (Button.t * bool)) :
  Forall (fun '(g, map) =>
      Mapping.getButtonMap hpp g = Ret map /\ length map = 8%nat /\
      Mapping.pullButtonsFromByte hpp c g out
        = Ret (out ++
               ((fun i : nat => (map !!! i, Z.testbit c (Z.of_nat i)))
                  <$> filter (fun i : nat => map !!! i <> Button.None) (seq 0 8))))
    [(ButtonSource.Left, JoyconLBitmap hpp);
     (ButtonSource.Middle, JoyconMidBitmap hpp);
     (ButtonSource.Right, JoyconRBitmap hpp)].
Proof.
  assert (Hrun : forall g map,
            Mapping.getButtonMap hpp g = Ret map -> length map = 8%nat ->
            Mapping.pullButtonsFromByte hpp c g out
              = Ret (out ++
                     ((fun i : nat => (map !!! i, Z.testbit c (Z.of_nat i)))
                        <$> filter (fun i : nat => map !!! i <> Button.None)
                              (seq 0 8)))).
  { intros g map Hmap Hlen. unfold Mapping.pullButtonsFromByte.
    rewrite Hmap. unfold_outcome. rewrite pull_loop_spec by lia. reflexivity. }
  constructor; [|constructor; [|constructor; [|constructor]]].
  - split; [reflexivity|]. split; [apply JoyconLBitmap_size|].
    apply Hrun; [reflexivity|apply JoyconLBitmap_size].
  - split; [reflexivity|]. split; [apply JoyconMidBitmap_size|].
    apply Hrun; [reflexivity|apply JoyconMidBitmap_size].
  - split; [reflexivity|]. split; [apply JoyconRBitmap_size|].
    apply Hrun; [reflexivity|apply JoyconRBitmap_size].
Qed.

End ButtonBytes.

(** ** Feedback correlator *)

Section Correlator.

Lemma targetEquals_fields (lhs rhs : VIGEM_TARGET) :
  Session.targetEquals lhs rhs = true <->
  ProductId lhs = ProductId rhs /\ SerialNo lhs = SerialNo rhs /\
  State lhs = State rhs /\ VendorId lhs = VendorId rhs.
Proof.
  unfold Session.targetEquals.
  rewrite !andb_true_iff, !Z.eqb_eq, bool_decide_eq_true. tauto.
Qed.

(** The scan either stops at the first reference, in registry order,
    whose controller matches, or finds that none does. *)
Lemma find_target_scan (h : gmap addr Controller) (t : VIGEM_TARGET)
    (rs : list addr) :
  (forall r, r ∈ rs -> is_Some (h !! r)) ->
  (exists (i : nat) (a : addr) (c : Controller),
      Session.find_target h t rs = Ret (Some a) /\
      rs !! i = Some a /\ h !! a = Some c /\
      Session.targetEquals (vController c) t = true /\
      (forall j r c', (j < i)%nat -> rs !! j = Some r -> h !! r = Some c' ->
                      Session.targetEquals (vController c') t = false)) \/
  (Session.find_target h t rs = Ret None /\
   forall r c, r ∈ rs -> h !! r = Some c ->
               Session.targetEquals (vController c) t = false).
Proof.
  induction rs as [|r rs IH]; intros Hlive.
  - right. split; [reflexivity|]. intros r c Hr. inversion Hr.
  - destruct (Hlive r) as [c Hc]; [left|]. simpl. rewrite Hc.
    destruct (Session.targetEquals (vController c) t) eqn:Heq.
    + left. exists 0%nat, r, c. repeat split; auto.
      intros j r' c' Hj. lia.
    + destruct IH as [(i & a & c' & Hf & Hi & Ha & Hm & Hfirst)|[Hf Hnone]].
      { intros r' Hr'. apply Hlive. right. exact Hr'. }
      * left. exists (S i), a, c'. repeat split; auto.
        intros j r' c'' Hj Hlook Hh. destruct j as [|j]; simpl in Hlook.
        -- injection Hlook as <-. rewrite Hc in Hh. injection Hh as <-. exact Heq.
        -- apply (Hfirst j r' c''); [lia|assumption..].
      * right. split; [exact Hf|]. intros r' c' Hr' Hh.
        apply elem_of_cons in Hr' as [->|Hr'].
        -- rewrite Hc in Hh. injection Hh as <-. exact Heq.
        -- apply (Hnone r' c'); assumption.
Qed.

(** C3. For every feedback callback with identity [t] and values
    (large motor, small motor, LED index), on a registry whose references
    are all live: either the first session of the registry whose virtual
    controller agrees with [t] on product id, serial, connection state and
    vendor id is selected, and exactly its three feedback members are set
    to the callback's values (every other member, every other session, the
    registry and the trace stay as they were); or no session matches and
    nothing changes. *)
Theorem vigemCallback_correlates (t : VIGEM_TARGET)
    (LargeMotor SmallMotor LEDNumber : uchar) (w : World) :
  (forall r, r ∈ controllers w -> is_Some (heap w !! r)) ->
  (exists (i : nat) (a : addr) (c : Controller),
      controllers w !! i = Some a /\ heap w !! a = Some c /\
      ProductId (vController c) = ProductId t /\
      SerialNo (vController c) = SerialNo t /\
      State (vController c) = State t /\
      VendorId (vController c) = VendorId t /\
      (forall j r c', (j < i)%nat -> controllers w !! j = Some r ->
                      heap w !! r = Some c' ->
                      Session.targetEquals (vController c') t = false) /\
      Session.vigemCallback t LargeMotor SmallMotor LEDNumber w
        = ({| heap := <[a := {| vController := vController c;
                                device := device c;
                                lastCommand := lastCommand c;
                                currentLed := LEDNumber;
                                largeMotor := LargeMotor;
                                smallMotor := SmallMotor |}]> (heap w);
              controllers := controllers w;
              trace := trace w |}, Ret tt)) \/
  ((forall r c, r ∈ controllers w -> heap w !! r = Some c ->
                ~ (ProductId (vController c) = ProductId t /\
                   SerialNo (vController c) = SerialNo t /\
                   State (vController c) = State t /\
                   VendorId (vController c) = VendorId t)) /\
   Session.vigemCallback t LargeMotor SmallMotor LEDNumber w = (w, Ret tt)).
Proof.
  intros Hlive.
  destruct (find_target_scan (heap w) t (controllers w) Hlive)
    as [(i & a & c & Hf & Hi & Ha & Hm & Hfirst)|[Hf Hnone]].
  - left. exists i, a, c.
    apply targetEquals_fields in Hm as (H1 & H2 & H3 & H4).
    repeat split; auto.
    unfold Session.vigemCallback, Session.find_in_registry. unfold_M.
    rewrite Hf, Ha. reflexivity.
  - right. split.
    + intros r c Hr Hc Hall. apply targetEquals_fields in Hall.
      rewrite (Hnone r c Hr Hc) in Hall. discriminate.
    + unfold Session.vigemCallback, Session.find_in_registry. unfold_M.
      rewrite Hf. reflexivity.
Qed.

End Correlator.

(** The callback for the second of two sessions updates that session and
    no other. *)
Lemma vigemCallback_correlates_witness :
  (forall r, r ∈ controllers Sample.two_sessions ->
             is_Some (heap Sample.two_sessions !! r)) /\
  Session.vigemCallback (Sample.target 2 VIGEM_TARGET_CONNECTED) 200 100 3
      Sample.two_sessions
    = ({| heap := <[2%nat := {| vController := Sample.target 2 VIGEM_TARGET_CONNECTED;
                                device := Some 12%nat; lastCommand := 0;
                                currentLed := 3; largeMotor := 200;
                                smallMotor := 100 |}]>
                    (heap Sample.two_sessions);
          controllers := [1%nat; 2%nat];
          trace := [] |}, Ret tt).
Proof.
  assert (Hlive : forall r, r ∈ controllers Sample.two_sessions ->
                            is_Some (heap Sample.two_sessions !! r)).
  { intros r Hr. simpl in Hr.
    apply elem_of_cons in Hr as [->|Hr]; [eexists; reflexivity|].
    apply elem_of_cons in Hr as [->|Hr]; [eexists; reflexivity|].
    inversion Hr. }
  split; [exact Hlive|].
  destruct (vigemCallback_correlates (Sample.target 2 VIGEM_TARGET_CONNECTED)
              200 100 3 Sample.two_sessions Hlive)
    as [(i & a & c & Hi & Ha & _ & Hserial & _ & _ & _ & Heq)|[Hnone _]].
  - rewrite Heq. clear Heq.
    destruct i as [|[|i]]; simpl in Hi; [| |discriminate].
    + injection Hi as <-. vm_compute in Ha. injection Ha as <-.
      vm_compute in Hserial. discriminate.
    + injection Hi as <-. vm_compute in Ha. injection Ha as <-. reflexivity.
  - exfalso.
    apply (Hnone 2%nat (Sample.session 2 VIGEM_TARGET_CONNECTED (Some 12%nat))).
    + simpl. right. left.
    + reflexivity.
    + repeat split.
Defined.

(** ** Polling *)

Section Polling.
Context (E : Env) (hpp : Hpp).

(** C4. For every polling call on an open device whose input exchange
    succeeds with a report whose first byte is [0x30]: the call returns
    having made the get-input exchange and nothing else; no packet is
    decoded, no report is submitted to the virtual controller, and the
    sessions and the registry are as before. *)
Theorem pollInput_sentinel (a : addr) (w : World) (c : Controller)
    (h : hid_device) (value : list uchar) :
  heap w !! a = Some c ->
  device c = Some h ->
  sendCommand_result E (trace w) h Wire.getInput Wire.empty = Some value ->
  value !! 0%nat = Some 0x30 ->
  Session.pollInput E hpp a w
    = ({| heap := heap w; controllers := controllers w;
          trace := trace w ++ [sendCommand h 0x1f []] |}, Ret tt).
Proof.
  intros Ha Hd Hreply Hfirst.
  unfold Session.pollInput, Session.do_sendCommand. unfold_M.
  rewrite Ha, Hd. cbn [trace heap controllers]. rewrite Hreply.
  unfold read_byte, uchar in *. rewrite Hfirst. reflexivity.
Qed.

End Polling.

(** The first session of [Sample.two_sessions] polls a device that
    answers with a [0x30] report. *)
Lemma pollInput_sentinel_witness :
  Session.pollInput (Sample.env Sample.ok (Some [0x30; 0x01; 0x02]) VIGEM_ERROR_NONE)
      Sample.hpp 1%nat Sample.two_sessions
    = ({| heap := heap Sample.two_sessions; controllers := [1%nat; 2%nat];
          trace := [sendCommand 11%nat 0x1f []] |}, Ret tt).
Proof.
  apply (pollInput_sentinel
           (Sample.env Sample.ok (Some [0x30; 0x01; 0x02]) VIGEM_ERROR_NONE)
           Sample.hpp 1%nat Sample.two_sessions
           (Sample.session 1 VIGEM_TARGET_CONNECTED (Some 11%nat))
           11%nat [0x30; 0x01; 0x02]); reflexivity.
Defined.

Section RawCopy.
Context (E : Env) (hpp : Hpp).






End RawCopy.

(** ** Destruction *)

Section Destruction.
Context (E : Env).


Lemma erase_first_subset (a x : addr) (l : list addr) :
  x ∈ Session.erase_first a l -> x ∈ l.
Proof.
  induction l as [|y l IH]; simpl; [auto|].
  destruct (decide (a = y)) as [->|Hne]; intros Hin.
  - right. exact Hin.
  - apply elem_of_cons in Hin as [->|Hin]; [left|right; auto].
Qed.

Lemma erase_first_NoDup (a : addr) (l : list addr) :
  NoDup l -> a ∉ Session.erase_first a l.
Proof.
  induction 1 as [|x l Hx Hnd IH]; simpl; [apply not_elem_of_nil|].
  destruct (decide (a = x)) as [->|Hne]; [exact Hx|].
  intros Hin. apply elem_of_cons in Hin as [Heq|Hin]; [contradiction|].
  exact (IH Hin).
Qed.


End Destruction.

(** ** Opening a device *)

Section OpenDevice.
Context (E : Env) (hpp : Hpp).

(** Normalises the state reached after a run of primitive steps. *)
Ltac run_steps :=
  repeat first
    [ progress cbn [heap controllers trace fst snd device vController
                    set_device set_vController set_lastCommand]
    | rewrite lookup_insert_eq
    | rewrite insert_insert_eq ].

Lemma device_reset_run (a : addr) (p : option hid_device) (w : World)
    (c : Controller) :
  heap w !! a = Some c ->
  Session.device_reset a p w
    = ({| heap := <[a := set_device p c]> (heap w);
          controllers := controllers w;
          trace := trace w ++ closing (device c) |}, Ret tt).
Proof.
  intros Ha. unfold Session.device_reset, Session.HIDCloser. unfold_M.
  rewrite Ha. destruct (device c) as [h0|]; run_steps.
  - reflexivity.
  - rewrite app_nil_r. reflexivity.
Qed.

Lemma openDevice_null (a : addr) (w : World) :
  Session.openDevice E hpp a None w
    = (w, Throw (ControllerException
                   "Unable to open controller device: dev was nullptr.")).
Proof. reflexivity. Qed.

Lemma openDevice_wrong_product (a : addr) (d : hid_device_info) (w : World) :
  product_id d <> Procon_ID hpp ->
  Session.openDevice E hpp a (Some d) w
    = (w, Throw (ControllerException
        "Unable to open controller device: product id was not a Switch Pro Controller.")).
Proof.
  intros Hne. unfold Session.openDevice.
  apply Z.eqb_neq in Hne. rewrite Hne. reflexivity.
Qed.

Lemma openDevice_not_opened (a : addr) (d : hid_device_info) (w : World)
    (c : Controller) :
  heap w !! a = Some c ->
  product_id d = Procon_ID hpp ->
  open_path_result E (trace w) (path d) = None ->
  Session.openDevice E hpp a (Some d) w
    = ({| heap := <[a := set_device None c]> (heap w);
          controllers := controllers w;
          trace := trace w ++ hid_open_path (path d) :: closing (device c) |},
       Throw (ControllerException
         "Unable to open controller device: device path could not be opened.")).
Proof.
  intros Ha Hid Hopen. unfold Session.openDevice.
  apply Z.eqb_eq in Hid. rewrite Hid. cbn [negb].
  unfold_M. cbn [trace]. rewrite Hopen.
  rewrite (device_reset_run a None _ c) by exact Ha.
  run_steps. rewrite <- app_assoc. reflexivity.
Qed.

Lemma openDevice_no_ack (a : addr) (d : hid_device_info) (w : World)
    (c : Controller) (h : hid_device) :
  heap w !! a = Some c ->
  product_id d = Procon_ID hpp ->
  open_path_result E (trace w) (path d) = Some h ->
  exchange_result E (trace w ++ hid_open_path (path d) :: closing (device c))
    h Wire.handshake = None ->
  Session.openDevice E hpp a (Some d) w
    = ({| heap := <[a := set_device (Some h) c]> (heap w);
          controllers := controllers w;
          trace := trace w ++ hid_open_path (path d) :: closing (device c)
                     ++ [exchange h [0x80; 0x02]] |},
       Throw (ControllerException "Handshake failed.")).
Proof.
  intros Ha Hid Hopen Hack. unfold Session.openDevice.
  apply Z.eqb_eq in Hid. rewrite Hid. cbn [negb].
  unfold_M. cbn [trace]. rewrite Hopen.
  rewrite (device_reset_run a (Some h) _ c) by exact Ha.
  run_steps. unfold Session.do_exchange. unfold_M. run_steps.
  rewrite <- !app_assoc. cbn [app]. rewrite Hack.
  reflexivity.
Qed.

Lemma openDevice_after_ack (a : addr) (d : hid_device_info) (w : World)
    (c : Controller) (h : hid_device) :
  heap w !! a = Some c ->
  product_id d = Procon_ID hpp ->
  open_path_result E (trace w) (path d) = Some h ->
  let tr0 := trace w ++ hid_open_path (path d) :: closing (device c) in
  is_Some (exchange_result E tr0 h Wire.handshake) ->
  let tr2 := tr0 ++ [exchange h [0x80; 0x02]; exchange h [0x80; 0x03];
                     exchange h [0x80; 0x02]; exchange h [0x80; 0x04]] in
  let tr3 := tr0 ++ handshake_calls h in
  let c3 := set_lastCommand (now E tr2) (set_device (Some h) c) in
  let r := plugin_result E tr3 (vController c) in
  Session.openDevice E hpp a (Some d) w
    = if bool_decide (fst r = VIGEM_ERROR_NONE)
      then ({| heap := <[a := set_vController (snd r) c3]> (heap w);
               controllers := controllers w;
               trace := tr3 ++ [vigem_target_plugin Xbox360Wired (vController c);
                                sleep_for 100;
                                vigem_register_xusb_notification (snd r);
                                sleep_for 100] |}, Ret tt)
      else ({| heap := <[a := set_device None (set_vController (snd r) c3)]> (heap w);
               controllers := controllers w;
               trace := tr3 ++ [vigem_target_plugin Xbox360Wired (vController c);
                                hid_close h] |},
            Throw (ControllerException "Unable to plugin ViGEm controller.")).
Proof.
  intros Ha Hid Hopen tr0 Hack tr2 tr3 c3 r. unfold Session.openDevice.
  apply Z.eqb_eq in Hid. rewrite Hid. cbn [negb].
  unfold_M. cbn [trace]. rewrite Hopen.
  rewrite (device_reset_run a (Some h) _ c) by exact Ha.
  run_steps. unfold Session.do_exchange, Session.do_sendSubcommand. unfold_M.
  run_steps. rewrite <- !app_assoc. cbn [app]. fold tr0.
  rewrite (bool_decide_eq_true_2 _ Hack). cbn [negb].
  run_steps.
  unfold Wire.handshake, Wire.switchBaudrate, Wire.HIDOnlyMode,
    Wire.rumbleCommand, Wire.imuDataCommand, Wire.ledCommand, Wire.enable,
    Wire.led.
  rewrite <- !app_assoc. cbn [app].
  clear Hack. subst r c3 tr3 tr2 tr0. unfold handshake_calls.
  destruct (device c) as [h0|] eqn:Hdev; cbn [closing];
    rewrite <- ?app_assoc; cbn [app];
    destruct (bool_decide (fst (plugin_result E _ (vController c)) = VIGEM_ERROR_NONE));
    cbn [negb];
    try rewrite (device_reset_run a None _ _ (lookup_insert_eq _ _ _));
    run_steps; rewrite <- ?app_assoc; cbn [app closing]; reflexivity.
Qed.

End OpenDevice.

Section Handshake.
Context (E : Env) (hpp : Hpp).

Lemma subcommand_ids_app (tr1 tr2 : list event) :
  subcommand_ids (tr1 ++ tr2) = subcommand_ids tr1 ++ subcommand_ids tr2.
Proof. unfold subcommand_ids. apply omap_app. Qed.

Lemma subcommand_ids_closing (old : option hid_device) :
  subcommand_ids (closing old) = [].
Proof. destruct old; reflexivity. Qed.

(** C6, as the code has it. Once the device is open, [openDevice] sends,
    in this order: handshake [0x80 0x02], switch-baud-rate [0x80 0x03],
    handshake again, HID-only-mode [0x80 0x04], then the subcommands
    rumble [0x48], IMU [0x40], LED [0x30], each with payload [0x01] and
    each tagged with the same id byte [0x01]; then it plugs the virtual
    controller in. It throws "Handshake failed." if and only if the first
    handshake exchange is not acknowledged; whatever the later exchanges
    answer, the sequence is sent in full and the call ends by returning or
    by the plug-in error. *)
Theorem openDevice_handshake_sequence (a : addr) (d : hid_device_info)
    (w : World) (c : Controller) (h : hid_device) :
  heap w !! a = Some c ->
  product_id d = Procon_ID hpp ->
  open_path_result E (trace w) (path d) = Some h ->
  let tr0 := trace w ++ hid_open_path (path d) :: closing (device c) in
  let run := Session.openDevice E hpp a (Some d) w in
  (snd run = Throw (ControllerException "Handshake failed.") <->
   exchange_result E tr0 h [0x80; 0x02] = None) /\
  (exchange_result E tr0 h [0x80; 0x02] = None ->
   trace (fst run) = tr0 ++ [exchange h [0x80; 0x02]]) /\
  (is_Some (exchange_result E tr0 h [0x80; 0x02]) ->
   (snd run = Ret tt \/
    snd run = Throw (ControllerException "Unable to plugin ViGEm controller.")) /\
   (exists rest,
       trace (fst run)
         = tr0 ++ [exchange h [0x80; 0x02];
                   exchange h [0x80; 0x03];
                   exchange h [0x80; 0x02];
                   exchange h [0x80; 0x04];
                   clock_now;
                   sendSubcommand h 0x01 0x48 [0x01];
                   sendSubcommand h 0x01 0x40 [0x01];
                   sendSubcommand h 0x01 0x30 [0x01];
                   vigem_target_plugin Xbox360Wired (vController c)] ++ rest) /\
   subcommand_ids (trace (fst run))
     = subcommand_ids (trace w) ++ [0x01; 0x01; 0x01]).
Proof.
  intros Ha Hid Hopen tr0 run.
  assert (Hnone : exchange_result E tr0 h [0x80; 0x02] = None ->
                  run = ({| heap := <[a := set_device (Some h) c]> (heap w);
                            controllers := controllers w;
                            trace := tr0 ++ [exchange h [0x80; 0x02]] |},
                         Throw (ControllerException "Handshake failed."))).
  { intros Hack. unfold run.
    rewrite (openDevice_no_ack E hpp a d w c h Ha Hid Hopen Hack).
    unfold tr0. rewrite <- app_assoc. reflexivity. }
  pose proof (openDevice_after_ack E hpp a d w c h Ha Hid Hopen) as Hsome.
  cbv zeta in Hsome. fold tr0 in Hsome. fold run in Hsome.
  split; [|split].
  - split; [|intros Hack; rewrite (Hnone Hack); reflexivity].
    intros Hthrow.
    destruct (exchange_result E tr0 h [0x80; 0x02]) as [ack|] eqn:Hack;
      [|reflexivity].
    rewrite Hsome in Hthrow by (exists ack; exact Hack).
    destruct (bool_decide _) in Hthrow; discriminate.
  - intros Hack. rewrite (Hnone Hack). reflexivity.
  - intros Hack. rewrite (Hsome Hack).
    destruct (bool_decide _); cbn [fst snd trace]; (split; [auto|]);
      unfold handshake_calls; (split; [eexists; rewrite <- app_assoc; reflexivity|]);
      unfold tr0; rewrite !subcommand_ids_app;
      change (hid_open_path (path d) :: closing (device c))
        with ([hid_open_path (path d)] ++ closing (device c));
      rewrite subcommand_ids_app, subcommand_ids_closing;
      unfold subcommand_ids; simpl; rewrite ?app_nil_r; reflexivity.
Qed.


End Handshake.

(** ** The outgoing button mapping *)

Section OutgoingMapping.

Lemma expandUChar_no_throw (c : uchar) (e : exception) :
  Axis.expandUChar c <> Throw e.
Proof.
  unfold Axis.expandUChar, Axis.static_cast_short.
  destruct (Axis.truncate _) as [z|]; [|discriminate].
  destruct (_ && _); discriminate.
Qed.

Lemma pullButtonsFromByte_named (hpp : Hpp) (c : uchar) (g : ButtonSource.t)
    (out : list (Button.t * bool)) :
  g ∈ [ButtonSource.Left; ButtonSource.Middle; ButtonSource.Right] ->
  exists pairs, Mapping.pullButtonsFromByte hpp c g out = Ret pairs.
Proof.
  intros Hg. destruct (getButtonMap_named hpp g Hg) as (map & Hmap & Hlen).
  unfold Mapping.pullButtonsFromByte. rewrite Hmap. unfold_outcome.
  rewrite pull_loop_spec by lia. eexists. reflexivity.
Qed.

(** C8, as the code has it. A button outside the domain of the outgoing
    mapping (Share, None, or a value that is no enumerator), the two
    triggers apart, maps to the bits [0x0000]: pressing it leaves the
    report as it was, silently. The two triggers set their trigger axis to
    255 and leave the button field alone. And building a report never
    throws, whatever buttons the tables hold. *)
Theorem unmapped_buttons_are_silent :
  (forall (b : Button.t) (r : XUSB_REPORT),
      in_output_domain b = false -> is_trigger b = false ->
      Mapping.buttonToReportBits b = 0x0000 /\
      (0 <= wButtons r < 2 ^ 16 -> Mapping.mapButtonToReport b r = r)) /\
  (forall r : XUSB_REPORT,
      Mapping.mapButtonToReport Button.LZ r
        = {| wButtons := wButtons r; bLeftTrigger := 255;
             bRightTrigger := bRightTrigger r;
             sThumbLX := sThumbLX r; sThumbLY := sThumbLY r;
             sThumbRX := sThumbRX r; sThumbRY := sThumbRY r |} /\
      Mapping.mapButtonToReport Button.RZ r
        = {| wButtons := wButtons r; bLeftTrigger := bLeftTrigger r;
             bRightTrigger := 255;
             sThumbLX := sThumbLX r; sThumbLY := sThumbLY r;
             sThumbRX := sThumbRX r; sThumbRY := sThumbRY r |}) /\
  (forall (hpp : Hpp) (p : InputPacket) (r : XUSB_REPORT) (e : exception),
      Mapping.mapInputToReport hpp p r <> Throw e).
Proof.
  split; [|split].
  - intros b r Hdom Htrig.
    assert (Hbits : Mapping.buttonToReportBits b = 0)
      by (destruct b; try discriminate; reflexivity).
    split; [exact Hbits|]. intros Hrange.
    destruct r as [wb lt rt lx ly rx ry]. cbn [wButtons] in Hrange.
    destruct b; try discriminate; cbn -[Z.pow];
      unfold to_ushort; rewrite Z.lor_0_r, Z.mod_small by lia; reflexivity.
  - intros r. split; reflexivity.
  - intros hpp p r e. unfold Mapping.mapInputToReport. unfold_outcome.
    pose proof (expandUChar_no_throw (Mapping.LeftX p) e).
    pose proof (expandUChar_no_throw (Mapping.LeftY p) e).
    pose proof (expandUChar_no_throw (Mapping.RightX p) e).
    pose proof (expandUChar_no_throw (Mapping.RightY p) e).
    destruct (Axis.expandUChar (Mapping.LeftX p)); [|congruence|discriminate].
    destruct (Axis.expandUChar (Mapping.LeftY p)); [|congruence|discriminate].
    destruct (Axis.expandUChar (Mapping.RightX p)); [|congruence|discriminate].
    destruct (Axis.expandUChar (Mapping.RightY p)); [|congruence|discriminate].
    destruct (pullButtonsFromByte_named hpp (leftButtons p) ButtonSource.Left [])
      as [b1 ->]; [set_solver|].
    destruct (pullButtonsFromByte_named hpp (rightButtons p) ButtonSource.Right b1)
      as [b2 ->]; [set_solver|].
    destruct (pullButtonsFromByte_named hpp (middleButtons p) ButtonSource.Middle b2)
      as [b3 ->]; [set_solver|].
    discriminate.
Qed.

End OutgoingMapping.

(** ** The operations on concrete instances *)

(** C8 as stated fails: with Share (bit 5) and an unrecognised value
    (bit 7) held in the middle byte, neither button is in the domain of
    the outgoing mapping nor a trigger, yet the report is built, with no
    button bit set, and nothing is raised. *)
Lemma share_and_unrecognised_are_no_ops :
  in_output_domain Button.Share = false /\ is_trigger Button.Share = false /\
  in_output_domain (Button.other 7) = false /\
  is_trigger (Button.other 7) = false /\
  Mapping.pullButtonsFromByte Sample.hpp 0xA0 ButtonSource.Middle []
    = Ret [(Button.Minus, false); (Button.Plus, false); (Button.RStick, false);
           (Button.LStick, false); (Button.Home, false); (Button.Share, true);
           (Button.other 7, true)] /\
  Mapping.mapButtonToReport Button.Share zero_report = zero_report /\
  Mapping.mapButtonToReport (Button.other 7) zero_report = zero_report /\
  Mapping.mapInputToReport Sample.hpp
      (mkInputPacket [0; 0; 0; 0; 0; 0; 0; 0] [0; 0; 0; 0; 0] 0 0xA0 0
                     [0; 0; 0; 0; 0; 0])
      zero_report
    = Ret {| wButtons := 0; bLeftTrigger := 0; bRightTrigger := 0;
             sThumbLX := -32768; sThumbLY := -32768;
             sThumbRX := -32768; sThumbRY := -32768 |}.
Proof. repeat split; vm_compute; reflexivity. Qed.

(** C6 as stated fails: the three feature-enable subcommands of a
    successful [openDevice] all carry the id [0x01]; the ids do not tell
    them apart. *)
Lemma subcommand_ids_not_distinct :
  let run := Sample.establish (Sample.env Sample.ok None VIGEM_ERROR_NONE)
               (Some Sample.pro_controller) in
  snd run = Ret tt /\
  subcommand_ids (trace (fst run)) = [0x01; 0x01; 0x01] /\
  ~ NoDup (subcommand_ids (trace (fst run))).
Proof.
  assert (Hids : subcommand_ids
            (trace (fst (Sample.establish
                           (Sample.env Sample.ok None VIGEM_ERROR_NONE)
                           (Some Sample.pro_controller)))) = [0x01; 0x01; 0x01])
    by (vm_compute; reflexivity).
  cbv zeta. split; [vm_compute; reflexivity|]. split; [exact Hids|].
  rewrite Hids. intros Hnd. apply NoDup_cons in Hnd as [Hnot _].
  apply Hnot. left.
Qed.


(** [openDevice] on a freshly built session, with a device that
    acknowledges every exchange. *)
Lemma openDevice_handshake_sequence_witness :
  let E := Sample.env Sample.ok None VIGEM_ERROR_NONE in
  let run := Session.openDevice E Sample.hpp 1%nat (Some Sample.pro_controller)
               (Sample.fresh E) in
  (snd run = Throw (ControllerException "Handshake failed.") <->
   exchange_result E [hid_open_path "usb-1"] 1%nat [0x80; 0x02] = None) /\
  snd run = Ret tt /\
  subcommand_ids (trace (fst run)) = [0x01; 0x01; 0x01].
Proof.
  intros E run.
  destruct (openDevice_handshake_sequence E Sample.hpp 1%nat
              Sample.pro_controller (Sample.fresh E)
              (set_device None
                 (set_vController (VIGEM_TARGET_INIT E Session.zero_target)
                    Sample.storage))
              1%nat eq_refl eq_refl eq_refl)
    as (Hiff & _ & Hsome).
  split; [exact Hiff|].
  destruct Hsome as ([Hret|Hplug] & _ & Hids).
  - exists [0x81; 0x02]. reflexivity.
  - split; [exact Hret | exact Hids].
  - vm_compute in Hplug. discriminate.
Defined.



(** A poll that receives the 22-byte report [Sample.report_bytes]
    submits, once, the report with button A ([0x1000]) and the four axes
    of the stick bytes [0x34,0x05,0x78,0x9A,0x0B,0xCD]. *)
Example pollInput_submits_report :
  Session.pollInput
      (Sample.env Sample.ok (Some Sample.report_bytes) VIGEM_ERROR_NONE)
      Sample.hpp 1%nat Sample.two_sessions
    = ({| heap := heap Sample.two_sessions;
          controllers := [1%nat; 2%nat];
          trace := [sendCommand 11%nat 0x1f [];
                    vigem_xusb_submit_report
                      (Sample.target 1 VIGEM_TARGET_CONNECTED)
                      {| wButtons := 0x1000; bLeftTrigger := 0;
                         bRightTrigger := 0;
                         sThumbLX := 257 * 0x53 - 32768;
                         sThumbLY := 257 * 0x78 - 32768;
                         sThumbRX := 257 * 0xB9 - 32768;
                         sThumbRY := 257 * 0xCD - 32768 |}] |}, Ret tt).
Proof. vm_compute. reflexivity. Qed.

(** A poll that receives a two-byte answer other than the [0x30] report
    copies past its end. *)
Example pollInput_short_answer :
  snd (Session.pollInput
         (Sample.env Sample.ok (Some [0x21; 0x00]) VIGEM_ERROR_NONE)
         Sample.hpp 1%nat Sample.two_sessions)
    = Undefined.
Proof. vm_compute. reflexivity. Qed.

(** A failed plug-in releases the device handle and leaves the session
    registered. *)
Example openDevice_plugin_failure :
  let run := Sample.establish (Sample.env Sample.ok None (VIGEM_ERROR_code 5))
               (Some Sample.pro_controller) in
  snd run = Throw (ControllerException "Unable to plugin ViGEm controller.") /\
  controllers (fst run) = [1%nat] /\
  (device <$> heap (fst run) !! 1%nat) = Some None /\
  trace (fst run)
    = [hid_open_path "usb-1"] ++ handshake_calls 1%nat ++
      [vigem_target_plugin Xbox360Wired
         (VIGEM_TARGET_INIT (Sample.env Sample.ok None (VIGEM_ERROR_code 5))
            Session.zero_target);
       hid_close 1%nat].
Proof. cbv zeta. repeat split; vm_compute; reflexivity. Qed.

(** Construction followed by destruction leaves the registry as it
    was. *)
Example construct_then_destroy :
  let E := Sample.env Sample.ok None VIGEM_ERROR_NONE in
  (Session.Controller_ctor E 3%nat Sample.storage ≫= fun _ =>
     Session.Controller_dtor E 3%nat) Sample.two_sessions
    = (Sample.two_sessions, Ret tt).
Proof. vm_compute. reflexivity. Qed.

(** * Further properties of the code *)

(** ** The outgoing bit table *)

Section ReportBits.

(** X1. Each of the fifteen buttons that [buttonToReportBits] has a case
    for maps to a single bit of the 16-bit button field; no two of them
    map to the same bit; every other button maps to no bit; and bit 11
    ([0x0800]) is produced by no button. *)
Theorem buttonToReportBits_distinct_bits :
  (forall b, in_output_domain b = true ->
     exists k, 0 <= k < 16 /\ Mapping.buttonToReportBits b = 2 ^ k) /\
  (forall b1 b2, in_output_domain b1 = true -> in_output_domain b2 = true ->
     Mapping.buttonToReportBits b1 = Mapping.buttonToReportBits b2 -> b1 = b2) /\
  (forall b, in_output_domain b = false -> Mapping.buttonToReportBits b = 0) /\
  (forall b, Z.testbit (Mapping.buttonToReportBits b) 11 = false).
Proof.
  repeat split.
  - intros b Hb. destruct b; try discriminate;
      [exists 12|exists 13|exists 14|exists 15|exists 6|exists 7|exists 8
      |exists 9|exists 10|exists 4|exists 5|exists 1|exists 0|exists 2|exists 3];
      (split; [lia|reflexivity]).
  - intros b1 b2 H1 H2 Heq.
    destruct b1; try discriminate; destruct b2; try discriminate;
      try reflexivity; discriminate.
  - intros b Hb. destruct b; try discriminate; reflexivity.
  - intros b. destruct b; reflexivity.
Qed.

End ReportBits.

(** ** Building the report from the held buttons *)

Section ReportBuilder.

Lemma lor_below_pow2 (a b n : Z) :
  0 < n -> 0 <= a < 2 ^ n -> 0 <= b < 2 ^ n -> 0 <= Z.lor a b < 2 ^ n.
Proof.
  intros Hn Ha Hb.
  assert (H0 : 0 <= Z.lor a b) by (apply Z.lor_nonneg; lia).
  split; [exact H0|].
  destruct (Z.eq_dec (Z.lor a b) 0) as [->|Hne]; [lia|].
  apply Z.log2_lt_pow2; [lia|].
  rewrite Z.log2_lor by lia.
  apply Z.max_lub_lt.
  - destruct (Z.eq_dec a 0) as [->|]; [simpl; lia|]. apply Z.log2_lt_pow2; lia.
  - destruct (Z.eq_dec b 0) as [->|]; [simpl; lia|]. apply Z.log2_lt_pow2; lia.
Qed.

Lemma buttonToReportBits_range (b : Button.t) :
  0 <= Mapping.buttonToReportBits b < 2 ^ 16.
Proof. destruct b; simpl; lia. Qed.

Lemma to_ushort_bits (z k : Z) :
  0 <= k -> Z.testbit (to_ushort z) k = (k <? 16) && Z.testbit z k.
Proof.
  intros Hk. unfold to_ushort. destruct (Z.ltb_spec k 16).
  - rewrite Z.mod_pow2_bits_low by lia. reflexivity.
  - rewrite Z.mod_pow2_bits_high by lia. reflexivity.
Qed.

(** A button that is no trigger only touches the button field. *)
Lemma mapButtonToReport_plain (b : Button.t) (r : XUSB_REPORT) :
  is_trigger b = false ->
  Mapping.mapButtonToReport b r
    = {| wButtons := to_ushort (Z.lor (wButtons r) (Mapping.buttonToReportBits b));
         bLeftTrigger := bLeftTrigger r; bRightTrigger := bRightTrigger r;
         sThumbLX := sThumbLX r; sThumbLY := sThumbLY r;
         sThumbRX := sThumbRX r; sThumbRY := sThumbRY r |}.
Proof. intros Hb. destruct b; try discriminate; reflexivity. Qed.

Lemma to_ushort_lor_swap (w m1 m2 : Z) :
  to_ushort (Z.lor (to_ushort (Z.lor w m1)) m2)
    = to_ushort (Z.lor (to_ushort (Z.lor w m2)) m1).
Proof.
  apply Z.bits_inj'. intros k Hk.
  rewrite !to_ushort_bits, !Z.lor_spec, !to_ushort_bits, !Z.lor_spec by lia.
  destruct (k <? 16), (Z.testbit w k), (Z.testbit m1 k), (Z.testbit m2 k);
    reflexivity.
Qed.

Lemma to_ushort_lor_again (w m : Z) :
  to_ushort (Z.lor (to_ushort (Z.lor w m)) m) = to_ushort (Z.lor w m).
Proof.
  apply Z.bits_inj'. intros k Hk.
  rewrite !to_ushort_bits, !Z.lor_spec, !to_ushort_bits, !Z.lor_spec by lia.
  destruct (k <? 16), (Z.testbit w k), (Z.testbit m k); reflexivity.
Qed.

Lemma mapButtonToReport_comm (b1 b2 : Button.t) (r : XUSB_REPORT) :
  Mapping.mapButtonToReport b1 (Mapping.mapButtonToReport b2 r)
    = Mapping.mapButtonToReport b2 (Mapping.mapButtonToReport b1 r).
Proof.
  destruct (is_trigger b1) eqn:H1; destruct (is_trigger b2) eqn:H2.
  - destruct b1; try discriminate; destruct b2; try discriminate; reflexivity.
  - rewrite !(mapButtonToReport_plain b2) by exact H2.
    destruct b1; try discriminate; reflexivity.
  - rewrite !(mapButtonToReport_plain b1) by exact H1.
    destruct b2; try discriminate; reflexivity.
  - rewrite !(mapButtonToReport_plain b1), !(mapButtonToReport_plain b2)
      by assumption.
    cbn [wButtons bLeftTrigger bRightTrigger sThumbLX sThumbLY sThumbRX sThumbRY].
    rewrite (to_ushort_lor_swap (wButtons r)). reflexivity.
Qed.

Lemma mapButtonToReport_again (b : Button.t) (r : XUSB_REPORT) :
  Mapping.mapButtonToReport b (Mapping.mapButtonToReport b r)
    = Mapping.mapButtonToReport b r.
Proof.
  destruct (is_trigger b) eqn:Hb.
  - destruct b; try discriminate; reflexivity.
  - rewrite !(mapButtonToReport_plain b) by exact Hb.
    cbn [wButtons bLeftTrigger bRightTrigger sThumbLX sThumbLY sThumbRX sThumbRY].
    rewrite to_ushort_lor_again. reflexivity.
Qed.

Lemma press_comm (p1 p2 : Button.t * bool) (r : XUSB_REPORT) :
  Mapping.press (Mapping.press r p1) p2 = Mapping.press (Mapping.press r p2) p1.
Proof.
  destruct p1 as [b1 []], p2 as [b2 []]; unfold Mapping.press; simpl;
    auto using mapButtonToReport_comm.
Qed.

(** X2. The report does not depend on the order in which the decoded
    pairs are applied, nor on how often a held button occurs: pressing a
    button a second time changes nothing, and two lists of pairs that are
    permutations of each other build the same report. *)
Theorem press_order_irrelevant :
  (forall (r : XUSB_REPORT) (p : Button.t * bool),
      Mapping.press (Mapping.press r p) p = Mapping.press r p) /\
  (forall (bs bs' : list (Button.t * bool)),
      bs ≡ₚ bs' ->
      forall r : XUSB_REPORT, foldl Mapping.press r bs = foldl Mapping.press r bs').
Proof.
  split.
  - intros r [b []]; unfold Mapping.press; simpl;
      auto using mapButtonToReport_again.
  - induction 1 as [|x l l' _ IH|x y l|l l' l'' _ IH1 _ IH2]; intros r.
    + reflexivity.
    + simpl. apply IH.
    + simpl. rewrite press_comm. reflexivity.
    + rewrite IH1. apply IH2.
Qed.

Lemma press_step (r : XUSB_REPORT) (b : Button.t) (pressed : bool) :
  0 <= wButtons r < 2 ^ 16 ->
  let r' := Mapping.press r (b, pressed) in
  0 <= wButtons r' < 2 ^ 16 /\
  (forall k, 0 <= k ->
     Z.testbit (wButtons r') k
       = Z.testbit (wButtons r) k
         || (pressed && Z.testbit (Mapping.buttonToReportBits b) k)) /\
  bLeftTrigger r'
    = (if pressed && bool_decide (b = Button.LZ) then 255 else bLeftTrigger r) /\
  bRightTrigger r'
    = (if pressed && bool_decide (b = Button.RZ) then 255 else bRightTrigger r).
Proof.
  intros Hr r'. unfold r', Mapping.press. cbn [fst snd].
  destruct pressed; cbn [andb].
  2:{ split; [exact Hr|]. split; [|split; reflexivity].
      intros k _. rewrite orb_false_r. reflexivity. }
  destruct (is_trigger b) eqn:Hb.
  - destruct b; try discriminate; cbn -[Z.pow Z.testbit];
      (split; [exact Hr|]); (split; [|split; reflexivity]);
      intros k _; rewrite Z.bits_0, orb_false_r; reflexivity.
  - rewrite (mapButtonToReport_plain b r Hb).
    cbn [wButtons bLeftTrigger bRightTrigger].
    pose proof (buttonToReportBits_range b) as Hm.
    pose proof (lor_below_pow2 (wButtons r) (Mapping.buttonToReportBits b) 16
                  ltac:(lia) Hr Hm) as Hlor.
    unfold to_ushort. rewrite Z.mod_small by exact Hlor.
    split; [exact Hlor|]. split.
    + intros k _. apply Z.lor_spec.
    + destruct b; try discriminate; split; reflexivity.
Qed.

(** What the loop over the decoded pairs computes. *)
Lemma foldl_press_spec (bs : list (Button.t * bool))
    (r : XUSB_REPORT) :
  0 <= wButtons r < 2 ^ 16 ->
  let r' := foldl Mapping.press r bs in
  0 <= wButtons r' < 2 ^ 16 /\
  (forall k, 0 <= k ->
     Z.testbit (wButtons r') k
       = Z.testbit (wButtons r) k
         || some_held (fun b => Z.testbit (Mapping.buttonToReportBits b) k) bs) /\
  bLeftTrigger r'
    = (if some_held (fun b => bool_decide (b = Button.LZ)) bs
       then 255 else bLeftTrigger r) /\
  bRightTrigger r'
    = (if some_held (fun b => bool_decide (b = Button.RZ)) bs
       then 255 else bRightTrigger r).
Proof.
  revert r. induction bs as [|[b pressed] bs IH]; intros r Hr.
  - cbn. split; [exact Hr|]. split; [|split; reflexivity].
    intros k _. rewrite orb_false_r. reflexivity.
  - destruct (press_step r b pressed Hr) as (Hr1 & Hbits1 & Hl1 & Hr1').
    destruct (IH _ Hr1) as (Hrange & Hbits & Hl & Hrt).
    cbn [foldl] in *. cbv zeta in *. unfold some_held in *. cbn [existsb fst snd].
    split; [exact Hrange|]. split; [|split].
    + intros k Hk. rewrite (Hbits k Hk), (Hbits1 k Hk), orb_assoc. reflexivity.
    + rewrite Hl, Hl1. clear.
      destruct (existsb _ bs), (pressed && bool_decide (b = Button.LZ));
        reflexivity.
    + rewrite Hrt, Hr1'. clear.
      destruct (existsb _ bs), (pressed && bool_decide (b = Button.RZ));
        reflexivity.
Qed.

(** X3. Starting from a report whose button field is a 16-bit value, the
    loop over the decoded pairs yields a report in which a bit of the
    button field is set exactly when it was set before or some held
    button maps to it, and in which a trigger is 255 when its button (LZ
    for the left, RZ for the right) is held and is left alone otherwise;
    the button field stays a 16-bit value. *)
Theorem report_shows_held_buttons (bs : list (Button.t * bool))
    (r : XUSB_REPORT) :
  0 <= wButtons r < 2 ^ 16 ->
  let r' := foldl Mapping.press r bs in
  0 <= wButtons r' < 2 ^ 16 /\
  (forall k, 0 <= k ->
     Z.testbit (wButtons r') k
       = Z.testbit (wButtons r) k
         || some_held (fun b => Z.testbit (Mapping.buttonToReportBits b) k) bs) /\
  bLeftTrigger r'
    = (if some_held (fun b => bool_decide (b = Button.LZ)) bs
       then 255 else bLeftTrigger r) /\
  bRightTrigger r'
    = (if some_held (fun b => bool_decide (b = Button.RZ)) bs
       then 255 else bRightTrigger r).
Proof. apply foldl_press_spec. Qed.

End ReportBuilder.

(** With A held, LZ held and B released, on the empty report: bits
    [0x1000], left trigger 255. *)
Lemma report_shows_held_buttons_witness :
  0 <= wButtons zero_report < 2 ^ 16 /\
  foldl Mapping.press zero_report
      [(Button.A, true); (Button.LZ, true); (Button.B, false)]
    = {| wButtons := 0x1000; bLeftTrigger := 255; bRightTrigger := 0;
         sThumbLX := 0; sThumbLY := 0; sThumbRX := 0; sThumbRY := 0 |} /\
  Z.testbit (wButtons (foldl Mapping.press zero_report
                         [(Button.A, true); (Button.LZ, true); (Button.B, false)]))
            12
    = true.
Proof.
  assert (Hr : 0 <= wButtons zero_report < 2 ^ 16) by (simpl; lia).
  split; [exact Hr|]. split; [reflexivity|].
  destruct (report_shows_held_buttons
              [(Button.A, true); (Button.LZ, true); (Button.B, false)]
              zero_report Hr) as (_ & Hbits & _).
  rewrite (Hbits 12 ltac:(lia)). reflexivity.
Defined.

(** ** The axis normaliser on all samples, and the whole report *)

Section WholeReport.

Lemma expandUChar_range (c : uchar) (z : Z) :
  Axis.expandUChar c = Ret z -> short_min <= z <= short_max.
Proof.
  unfold Axis.expandUChar, Axis.static_cast_short.
  destruct (Axis.truncate _) as [v|]; [|discriminate].
  destruct (short_min <=? v) eqn:Hlo; [|discriminate].
  destruct (v <=? short_max) eqn:Hhi; [|discriminate].
  cbn [andb]. intros [= <-]. split; [apply Z.leb_le|apply Z.leb_le]; assumption.
Qed.

(** X10. On the samples 0..255 [expandUChar] is strictly increasing:
    for [a < b] the two results differ by [257 * (b - a)] up to 2, so
    distinct samples never give the same axis value. *)
Theorem expandUChar_strictly_increasing (a b : uchar) :
  0 <= a -> a < b -> b <= 255 ->
  exists x y, Axis.expandUChar a = Ret x /\ Axis.expandUChar b = Ret y /\
              257 * (b - a) - 2 <= y - x <= 257 * (b - a) + 2 /\
              x < y.
Proof.
  intros Ha Hab Hb.
  destruct (expandUChar_near a) as (x & Hx & Hxr); [lia|].
  destruct (expandUChar_near b) as (y & Hy & Hyr); [lia|].
  exists x, y. repeat split; try assumption; lia.
Qed.

(** The report of a packet with byte-valued samples. *)
Lemma mapInputToReport_byte_packet (hpp : Hpp) (hd un : list uchar)
    (rb mb lb s0 s1 s2 s3 s4 s5 : uchar) (r : XUSB_REPORT) :
  0 <= s2 <= 255 -> 0 <= s5 <= 255 ->
  let p := mkInputPacket hd un rb mb lb [s0; s1; s2; s3; s4; s5] in
  exists r',
    Mapping.mapInputToReport hpp p r = Ret r' /\
    (short_min <= sThumbLX r' <= short_max /\
     short_min <= sThumbLY r' <= short_max /\
     short_min <= sThumbRX r' <= short_max /\
     short_min <= sThumbRY r' <= short_max) /\
    (257 * Mapping.LeftX p - 32768 - 1 <= sThumbLX r'
       <= 257 * Mapping.LeftX p - 32768 + 1 /\
     257 * s2 - 32768 - 1 <= sThumbLY r' <= 257 * s2 - 32768 + 1 /\
     257 * Mapping.RightX p - 32768 - 1 <= sThumbRX r'
       <= 257 * Mapping.RightX p - 32768 + 1 /\
     257 * s5 - 32768 - 1 <= sThumbRY r' <= 257 * s5 - 32768 + 1).
Proof.
  intros H2 H5 p.
  assert (HLX : 0 <= Mapping.LeftX p <= 255).
  { unfold Mapping.LeftX, to_uchar.
    match goal with |- 0 <= ?z mod _ <= _ =>
      pose proof (Z.mod_pos_bound z (2 ^ 8) ltac:(lia)) end. lia. }
  assert (HRX : 0 <= Mapping.RightX p <= 255).
  { unfold Mapping.RightX, to_uchar.
    match goal with |- 0 <= ?z mod _ <= _ =>
      pose proof (Z.mod_pos_bound z (2 ^ 8) ltac:(lia)) end. lia. }
  assert (HLY : Mapping.LeftY p = s2) by reflexivity.
  assert (HRY : Mapping.RightY p = s5) by reflexivity.
  destruct (expandUChar_near _ HLX) as (lx & Hlx & Hlxr).
  destruct (expandUChar_near s2 H2) as (ly & Hly & Hlyr).
  destruct (expandUChar_near _ HRX) as (rx & Hrx & Hrxr).
  destruct (expandUChar_near s5 H5) as (ry & Hry & Hryr).
  unfold Mapping.mapInputToReport. rewrite HLY, HRY, Hlx, Hly, Hrx, Hry.
  unfold_outcome.
  destruct (pullButtonsFromByte_named hpp (leftButtons p) ButtonSource.Left [])
    as [b1 ->]; [left|].
  destruct (pullButtonsFromByte_named hpp (rightButtons p) ButtonSource.Right b1)
    as [b2 ->]; [right; right; left|].
  destruct (pullButtonsFromByte_named hpp (middleButtons p) ButtonSource.Middle b2)
    as [b3 ->]; [right; left|].
  eexists. split; [reflexivity|].
  match goal with |- context [foldl Mapping.press ?r0 b3] =>
    destruct (press_all_axes b3 r0) as (E1 & E2 & E3 & E4) end.
  rewrite E1, E2, E3, E4. cbn [sThumbLX sThumbLY sThumbRX sThumbRY].
  pose proof (expandUChar_range _ _ Hlx). pose proof (expandUChar_range _ _ Hly).
  pose proof (expandUChar_range _ _ Hrx). pose proof (expandUChar_range _ _ Hry).
  repeat split; lia.
Qed.

(** X4. For every packet whose two directly copied stick samples
    (bytes 2 and 5 of [sticks]) are bytes, whatever the button bytes and
    the tables, [mapInputToReport] returns a report: no conversion is out
    of range and nothing is thrown. Its four axes are [short] values that
    depend on the stick bytes only, each within 1 of
    [257 * sample - 32768]. *)
Theorem mapInputToReport_defined (hpp : Hpp) (hd un : list uchar)
    (rb mb lb s0 s1 s2 s3 s4 s5 : uchar) (r : XUSB_REPORT) :
  0 <= s2 <= 255 -> 0 <= s5 <= 255 ->
  let p := mkInputPacket hd un rb mb lb [s0; s1; s2; s3; s4; s5] in
  exists r',
    Mapping.mapInputToReport hpp p r = Ret r' /\
    (short_min <= sThumbLX r' <= short_max /\
     short_min <= sThumbLY r' <= short_max /\
     short_min <= sThumbRX r' <= short_max /\
     short_min <= sThumbRY r' <= short_max) /\
    (257 * Mapping.LeftX p - 32768 - 1 <= sThumbLX r'
       <= 257 * Mapping.LeftX p - 32768 + 1 /\
     257 * s2 - 32768 - 1 <= sThumbLY r' <= 257 * s2 - 32768 + 1 /\
     257 * Mapping.RightX p - 32768 - 1 <= sThumbRX r'
       <= 257 * Mapping.RightX p - 32768 + 1 /\
     257 * s5 - 32768 - 1 <= sThumbRY r' <= 257 * s5 - 32768 + 1).
Proof. apply mapInputToReport_byte_packet. Qed.

(** X12. A buffer of at least 22 bytes is copied into the packet member
    by member at the offsets of the structure: [header] is bytes 0-7,
    [unknown] bytes 8-12, [rightButtons] byte 13, [middleButtons] byte
    14, [leftButtons] byte 15 and [sticks] bytes 16-21; laid out again,
    the members give back the first 22 bytes of the buffer. *)
Theorem memcpy_InputPacket_layout (value : list uchar) :
  (22 <= length value)%nat ->
  exists p,
    memcpy_InputPacket value = Ret p /\
    header p = take 8 value /\
    unknown p = take 5 (drop 8 value) /\
    value !! 13%nat = Some (rightButtons p) /\
    value !! 14%nat = Some (middleButtons p) /\
    value !! 15%nat = Some (leftButtons p) /\
    sticks p = take 6 (drop 16 value) /\
    header p ++ unknown p
      ++ [rightButtons p; middleButtons p; leftButtons p] ++ sticks p
      = take 22 value.
Proof.
  intros Hlen.
  do 22 (destruct value as [|? value]; [simpl in Hlen; lia|]).
  eexists. split; [reflexivity|]. repeat split; reflexivity.
Qed.

End WholeReport.

(** The samples 127 and 128, either side of the centre. *)
Lemma expandUChar_strictly_increasing_witness :
  exists x y, Axis.expandUChar 127 = Ret x /\ Axis.expandUChar 128 = Ret y /\
              257 * (128 - 127) - 2 <= y - x <= 257 * (128 - 127) + 2 /\
              x < y.
Proof.
  apply (expandUChar_strictly_increasing 127 128); lia.
Defined.

(** The packet of [Sample.report_bytes], button A held. *)
Lemma mapInputToReport_defined_witness :
  exists r',
    Mapping.mapInputToReport Sample.hpp
      (mkInputPacket [0x3f; 0; 0; 0; 0; 0; 0; 0] [0; 0; 0; 0; 0] 0x08 0 0
                     [0x34; 0x05; 0x78; 0x9A; 0x0B; 0xCD])
      zero_report = Ret r' /\
    sThumbLY r' = 257 * 0x78 - 32768 /\ wButtons r' = 0x1000.
Proof.
  destruct (mapInputToReport_defined Sample.hpp [0x3f; 0; 0; 0; 0; 0; 0; 0]
              [0; 0; 0; 0; 0] 0x08 0 0 0x34 0x05 0x78 0x9A 0x0B 0xCD zero_report
              ltac:(lia) ltac:(lia)) as (r' & Hrun & _).
  exists r'. split; [exact Hrun|].
  vm_compute in Hrun. injection Hrun as <-. split; reflexivity.
Defined.

(** [Sample.report_bytes] followed by two more bytes. *)
Lemma memcpy_InputPacket_layout_witness :
  exists p,
    memcpy_InputPacket (Sample.report_bytes ++ [0xAA; 0xBB]) = Ret p /\
    rightButtons p = 0x08 /\ sticks p = [0x34; 0x05; 0x78; 0x9A; 0x0B; 0xCD].
Proof.
  destruct (memcpy_InputPacket_layout (Sample.report_bytes ++ [0xAA; 0xBB]))
    as (p & Hp & _ & _ & Hrb & _ & _ & Hst & _).
  - simpl. lia.
  - exists p. split; [exact Hp|]. split.
    + injection Hrb as <-. reflexivity.
    + rewrite Hst. reflexivity.
Defined.

(** ** Polling: every path *)

Section PollingPaths.
Context (E : Env) (hpp : Hpp).

(** X5. When the device is open, the exchange answers at least 22
    bytes, and the first byte is not [0x30]: the poll copies the packet,
    builds the report from the empty report, submits it once to the
    session's own virtual controller, and returns; an error code of the
    submission is printed and not raised. Sessions and registry are
    untouched. *)
Theorem pollInput_submits (a : addr) (w : World) (c : Controller)
    (h : hid_device) (value : list uchar) :
  heap w !! a = Some c ->
  device c = Some h ->
  sendCommand_result E (trace w) h Wire.getInput Wire.empty = Some value ->
  Forall (fun b => 0 <= b <= 255) value ->
  (22 <= length value)%nat ->
  value !! 0%nat <> Some 0x30 ->
  exists p report,
    memcpy_InputPacket value = Ret p /\
    Mapping.mapInputToReport hpp p zero_report = Ret report /\
    Session.pollInput E hpp a w
      = ({| heap := heap w; controllers := controllers w;
            trace := trace w ++
                     sendCommand h 0x1f []
                     :: submission E (trace w ++ [sendCommand h 0x1f []])
                          (vController c) report |}, Ret tt).
Proof.
  intros Ha Hd Hreply Hbytes Hlen Hfirst.
  do 22 (destruct value as [|? value]; [simpl in Hlen; lia|]).
  assert (H18 : 0 <= u17 <= 255).
  { apply (Forall_lookup_1 _ _ 18%nat u17 Hbytes). reflexivity. }
  assert (H21 : 0 <= u20 <= 255).
  { apply (Forall_lookup_1 _ _ 21%nat u20 Hbytes). reflexivity. }
  destruct (mapInputToReport_byte_packet hpp [u; u0; u1; u2; u3; u4; u5; u6]
              [u7; u8; u9; u10; u11] u12 u13 u14 u15 u16 u17 u18 u19 u20
              zero_report H18 H21) as (report & Hreport & _).
  eexists. exists report. split; [reflexivity|]. split; [exact Hreport|].
  unfold Session.pollInput, Session.do_sendCommand. unfold_M.
  rewrite Ha, Hd. cbn [trace heap controllers]. rewrite Hreply.
  cbn [read_byte lookup list_lookup].
  assert (Hne : (u =? 0x30) = false).
  { apply Z.eqb_neq. intros ->. apply Hfirst. reflexivity. }
  rewrite Hne. cbn [negb].
  change (memcpy_InputPacket _)
    with (Ret (mkInputPacket [u; u0; u1; u2; u3; u4; u5; u6]
                 [u7; u8; u9; u10; u11] u12 u13 u14
                 [u15; u16; u17; u18; u19; u20])).
  cbv beta iota zeta. cbv zeta in Hreport. rewrite Hreport.
  cbn [heap controllers trace]. unfold submission.
  destruct (submit_result E _ (vController c) report) eqn:Herr.
  - rewrite bool_decide_eq_true_2 by reflexivity. cbn [negb].
    rewrite <- ?app_assoc. reflexivity.
  - rewrite bool_decide_eq_false_2 by discriminate.
    cbn [negb heap controllers trace]. rewrite <- ?app_assoc. reflexivity.
Qed.

Lemma pollInput_keeps_state (a : addr) (w : World) :
  heap (fst (Session.pollInput E hpp a w)) = heap w /\
  controllers (fst (Session.pollInput E hpp a w)) = controllers w /\
  exists evs, trace (fst (Session.pollInput E hpp a w)) = trace w ++ evs /\
              (length evs <= 3)%nat.
Proof.
  unfold Session.pollInput, Session.do_sendCommand. unfold_M.
  destruct (heap w !! a) as [c|];
    [|repeat split; exists []; rewrite app_nil_r; split; [reflexivity|simpl; lia]].
  destruct (device c) as [h|];
    [|repeat split; exists []; rewrite app_nil_r; split; [reflexivity|simpl; lia]].
  cbn [trace heap controllers].
  destruct (sendCommand_result E (trace w) h Wire.getInput Wire.empty)
    as [value|];
    [|repeat split; eexists; split; [reflexivity|simpl; lia]].
  destruct (read_byte value 0) as [b0| |];
    try (repeat split; eexists; split; [reflexivity|simpl; lia]).
  destruct (negb (b0 =? 48));
    [|repeat split; eexists; split; [reflexivity|simpl; lia]].
  destruct (memcpy_InputPacket value) as [p| |];
    try (repeat split; eexists; split; [reflexivity|simpl; lia]).
  destruct (Mapping.mapInputToReport hpp p zero_report) as [report| |];
    try (repeat split; eexists; split; [reflexivity|simpl; lia]).
  cbn [trace heap controllers].
  destruct (negb (bool_decide _)); cbn [fst heap controllers trace];
    repeat split; eexists; rewrite <- ?app_assoc;
    (split; [reflexivity|simpl; lia]).
Qed.

(** X6. Whatever happens, a poll leaves every session and the registry
    as they were and only appends to the trace, at most three calls. On a
    session without an open device it does nothing at all; when the
    exchange fails it throws "Error sending getInput command." after that
    one call, so the same session can be polled again; on a session that
    is gone it is undefined. *)
Theorem pollInput_frame (a : addr) (w : World) :
  (heap (fst (Session.pollInput E hpp a w)) = heap w /\
   controllers (fst (Session.pollInput E hpp a w)) = controllers w /\
   exists evs, trace (fst (Session.pollInput E hpp a w)) = trace w ++ evs /\
               (length evs <= 3)%nat) /\
  (forall c, heap w !! a = Some c -> device c = None ->
             Session.pollInput E hpp a w = (w, Ret tt)) /\
  (forall c h, heap w !! a = Some c -> device c = Some h ->
     sendCommand_result E (trace w) h Wire.getInput Wire.empty = None ->
     Session.pollInput E hpp a w
       = ({| heap := heap w; controllers := controllers w;
             trace := trace w ++ [sendCommand h 0x1f []] |},
          Throw (ControllerException "Error sending getInput command."))) /\
  (heap w !! a = None -> Session.pollInput E hpp a w = (w, Undefined)).
Proof.
  split; [apply pollInput_keeps_state|].
  unfold Session.pollInput, Session.do_sendCommand. unfold_M.
  split; [|split].
  - intros c Ha Hd. rewrite Ha, Hd. destruct w; reflexivity.
  - intros c h Ha Hd Hreply. rewrite Ha, Hd. cbn [trace heap controllers].
    rewrite Hreply. reflexivity.
  - intros Ha. rewrite Ha. reflexivity.
Qed.

End PollingPaths.

(** The first session of [Sample.two_sessions] receives
    [Sample.report_bytes]; the driver answers the submission with an
    error code, which is printed. *)
Lemma pollInput_submits_witness :
  let E := {| VIGEM_TARGET_INIT := fun t => t;
              open_path_result := fun _ _ => None;
              exchange_result := fun _ _ _ => None;
              sendCommand_result := fun _ _ _ _ => Some Sample.report_bytes;
              now := fun _ => 0;
              plugin_result := fun _ t => (VIGEM_ERROR_NONE, t);
              unplug_result := fun _ t => t;
              submit_result := fun _ _ _ => VIGEM_ERROR_code 7 |} in
  exists report,
    wButtons report = 0x1000 /\
    Session.pollInput E Sample.hpp 1%nat Sample.two_sessions
      = ({| heap := heap Sample.two_sessions; controllers := [1%nat; 2%nat];
            trace := [sendCommand 11%nat 0x1f [];
                      vigem_xusb_submit_report
                        (Sample.target 1 VIGEM_TARGET_CONNECTED) report;
                      cout_vigem_error (VIGEM_ERROR_code 7)] |}, Ret tt).
Proof.
  intros E.
  destruct (pollInput_submits E Sample.hpp 1%nat Sample.two_sessions
              (Sample.session 1 VIGEM_TARGET_CONNECTED (Some 11%nat)) 11%nat
              Sample.report_bytes eq_refl eq_refl eq_refl)
    as (p & report & Hp & Hreport & Hrun).
  - unfold Sample.report_bytes. repeat constructor; lia.
  - simpl. lia.
  - discriminate.
  - exists report. split; [|exact Hrun].
    vm_compute in Hp. injection Hp as <-.
    vm_compute in Hreport. injection Hreport as <-. reflexivity.
Defined.

(** ** Construction and destruction *)

(** Normalises the state reached after a run of primitive steps. *)
Ltac settle :=
  repeat first
    [ progress cbn [heap controllers trace fst snd device vController
                    set_device set_vController set_lastCommand set_feedback]
    | rewrite lookup_insert_eq
    | rewrite insert_insert_eq ].

Section Lifecycle.
Context (E : Env).

Lemma Controller_ctor_run (a : addr) (storage : Controller) (w : World) :
  heap w !! a = None ->
  Session.Controller_ctor E a storage w
    = ({| heap := <[a := constructed E storage]> (heap w);
          controllers := controllers w ++ [a];
          trace := trace w |}, Ret tt).
Proof. intros Ha. unfold Session.Controller_ctor. rewrite Ha. reflexivity. Qed.

Lemma mbind_M_ret {A B : Type} (m : M A) (k : A -> M B) (w w1 : World) (x : A) :
  m w = (w1, Ret x) -> (m ≫= k) w = k x w1.
Proof.
  intros H. change ((m ≫= k) w) with (mbind_M k m w).
  unfold mbind_M. rewrite H. reflexivity.
Qed.

Lemma unplug_if_connected_run (a : addr) (w : World) (c : Controller) :
  heap w !! a = Some c ->
  Session.unplug_if_connected E a w
    = (if decide (State (vController c) = VIGEM_TARGET_CONNECTED)
       then {| heap := <[a := set_vController
                             (unplug_result E (trace w) (vController c)) c]>
                         (heap w);
               controllers := controllers w;
               trace := trace w ++ [vigem_target_unplug (vController c)] |}
       else w, Ret tt).
Proof.
  intros Ha. unfold Session.unplug_if_connected. unfold_M. rewrite Ha.
  destruct (decide _); reflexivity.
Qed.

Lemma disconnect_if_open_run (a : addr) (w : World) (c : Controller) :
  heap w !! a = Some c ->
  Session.disconnect_if_open E a w
    = ({| heap := heap w; controllers := controllers w;
          trace := trace w ++ match device c with
                              | Some h => [exchange h [0x80; 0x05]]
                              | None => []
                              end |}, Ret tt).
Proof.
  intros Ha. unfold Session.disconnect_if_open, Session.do_exchange.
  unfold_M. rewrite Ha. destruct (device c); [reflexivity|].
  rewrite app_nil_r. destruct w; reflexivity.
Qed.

Lemma destroy_members_run (a : addr) (w : World) (c : Controller) :
  heap w !! a = Some c ->
  Session.destroy_members a w
    = ({| heap := delete a (heap w); controllers := controllers w;
          trace := trace w ++ closing (device c) |}, Ret tt).
Proof.
  intros Ha. unfold Session.destroy_members, Session.HIDCloser, Session.release.
  unfold_M. rewrite Ha. destruct (device c); [reflexivity|].
  cbn [closing]. rewrite app_nil_r. reflexivity.
Qed.

Lemma Controller_dtor_run (a : addr) (w : World) (c : Controller) :
  heap w !! a = Some c ->
  Session.Controller_dtor E a w
    = ({| heap := delete a (heap w);
          controllers := Session.erase_first a (controllers w);
          trace := trace w ++ teardown_calls c |}, Ret tt).
Proof.
  intros Ha. unfold Session.Controller_dtor, teardown_calls.
  rewrite (mbind_M_ret _ _ _ _ _ (unplug_if_connected_run a w c Ha)).
  destruct (decide (State (vController c) = VIGEM_TARGET_CONNECTED)).
  - erewrite mbind_M_ret
      by (apply disconnect_if_open_run; cbn [heap]; apply lookup_insert_eq).
    erewrite mbind_M_ret by reflexivity.
    erewrite destroy_members_run
      by (cbn [heap]; apply lookup_insert_eq).
    settle. rewrite delete_insert_eq.
    destruct (device c); cbn [closing]; rewrite <- ?app_assoc; reflexivity.
  - erewrite mbind_M_ret by (apply disconnect_if_open_run; exact Ha).
    erewrite mbind_M_ret by reflexivity.
    erewrite destroy_members_run by (cbn [heap]; exact Ha).
    settle.
    destruct (device c); cbn [closing app]; rewrite <- ?app_assoc; reflexivity.
Qed.

Lemma Controller_dtor_dangling (a : addr) (w : World) :
  heap w !! a = None -> Session.Controller_dtor E a w = (w, Undefined).
Proof.
  intros Ha.
  unfold Session.Controller_dtor, Session.unplug_if_connected. unfold_M.
  rewrite Ha. reflexivity.
Qed.

Lemma erase_first_last (a : addr) (l : list addr) :
  a ∉ l -> Session.erase_first a (l ++ [a]) = l.
Proof.
  induction l as [|x l IH]; intros Hnot; simpl.
  - rewrite decide_True by reflexivity. reflexivity.
  - rewrite decide_False by (intros ->; apply Hnot; left).
    rewrite IH; [reflexivity|]. intros Hin. apply Hnot. right. exact Hin.
Qed.

(** X7. A controller built at a free address and destroyed before any
    device was opened leaves the process as it was: the same sessions,
    the same registry, and no call made on any collaborator (as long as
    [VIGEM_TARGET_INIT] does not hand out a connected target). *)
Theorem construct_destroy_roundtrip (a : addr) (storage : Controller)
    (w : World) :
  heap w !! a = None ->
  a ∉ controllers w ->
  State (VIGEM_TARGET_INIT E Session.zero_target) <> VIGEM_TARGET_CONNECTED ->
  (Session.Controller_ctor E a storage ≫= fun _ => Session.Controller_dtor E a) w
    = (w, Ret tt).
Proof.
  intros Ha Hnot Hinit.
  change ((Session.Controller_ctor E a storage ≫= fun _ =>
             Session.Controller_dtor E a) w)
    with (mbind_M (fun _ => Session.Controller_dtor E a)
            (Session.Controller_ctor E a storage) w).
  unfold mbind_M. rewrite (Controller_ctor_run a storage w Ha).
  rewrite (Controller_dtor_run a _ (constructed E storage))
    by (cbn [heap]; apply lookup_insert_eq).
  cbn [heap controllers trace].
  rewrite (delete_insert_id _ _ _ Ha), (erase_first_last a _ Hnot).
  unfold teardown_calls, constructed.
  cbn [vController device set_device set_vController set_lastCommand].
  rewrite decide_False by exact Hinit. cbn [app]. rewrite app_nil_r.
  destruct w; reflexivity.
Qed.

End Lifecycle.

(** A third controller built beside [Sample.two_sessions] and destroyed
    at once. *)
Lemma construct_destroy_roundtrip_witness :
  let E := Sample.env Sample.ok None VIGEM_ERROR_NONE in
  (Session.Controller_ctor E 3%nat Sample.storage ≫= fun _ =>
     Session.Controller_dtor E 3%nat) Sample.two_sessions
    = (Sample.two_sessions, Ret tt).
Proof.
  intros E.
  apply (construct_destroy_roundtrip E 3%nat Sample.storage Sample.two_sessions).
  - reflexivity.
  - simpl. intros Hin.
    apply elem_of_cons in Hin as [Hin|Hin]; [discriminate|].
    apply elem_of_cons in Hin as [Hin|Hin]; [discriminate|].
    inversion Hin.
  - discriminate.
Defined.

(** ** The registry invariant *)

Section RegistryInvariant.
Context (E : Env) (hpp : Hpp).

Lemma erase_first_NoDup_keeps (a : addr) (l : list addr) :
  NoDup l -> NoDup (Session.erase_first a l).
Proof.
  induction 1 as [|x l Hx Hnd IH]; simpl; [constructor|].
  destruct (decide (a = x)); [exact Hnd|].
  constructor; [|exact IH].
  intros Hin. apply Hx. eapply erase_first_subset. exact Hin.
Qed.

Lemma elem_of_erase_first (a r : addr) (l : list addr) :
  NoDup l -> r ∈ Session.erase_first a l <-> r ∈ l /\ r <> a.
Proof.
  intros Hnd. split.
  - intros Hin. split; [eapply erase_first_subset; exact Hin|].
    intros ->. exact (erase_first_NoDup a l Hnd Hin).
  - intros [Hin Hne]. induction l as [|x l IH]; [inversion Hin|].
    simpl. apply NoDup_cons in Hnd as [Hx Hnd].
    destruct (decide (a = x)) as [->|Hax].
    + apply elem_of_cons in Hin as [->|Hin]; [contradiction|exact Hin].
    + apply elem_of_cons in Hin as [->|Hin]; [left|right; auto].
Qed.

Lemma registry_ok_same_sessions (w w' : World) :
  registry_ok w ->
  controllers w' = controllers w ->
  (forall r, is_Some (heap w' !! r) <-> is_Some (heap w !! r)) ->
  registry_ok w'.
Proof.
  intros [Hnd Hiff] Hc Hh. split; rewrite Hc; [exact Hnd|].
  intros r. rewrite Hh. apply Hiff.
Qed.

Lemma is_Some_insert_live (h : gmap addr Controller) (a r : addr)
    (c c' : Controller) :
  h !! a = Some c -> is_Some (<[a := c']> h !! r) <-> is_Some (h !! r).
Proof.
  intros Ha. rewrite lookup_insert_is_Some'. split; [|auto].
  intros [<-|H]; [eexists; exact Ha|exact H].
Qed.

(** [openDevice] keeps the registry and the set of live sessions, on
    every path. *)
Lemma openDevice_keeps_sessions (a : addr) (dev : option hid_device_info)
    (w : World) :
  controllers (fst (Session.openDevice E hpp a dev w)) = controllers w /\
  forall r, is_Some (heap (fst (Session.openDevice E hpp a dev w)) !! r)
            <-> is_Some (heap w !! r).
Proof.
  destruct dev as [d|]; [|rewrite openDevice_null; split; reflexivity].
  destruct (Z.eq_dec (product_id d) (Procon_ID hpp)) as [Hid|Hid];
    [|rewrite (openDevice_wrong_product E hpp a d w Hid); split; reflexivity].
  destruct (heap w !! a) as [c|] eqn:Ha.
  - destruct (open_path_result E (trace w) (path d)) as [h|] eqn:Hopen.
    2:{ rewrite (openDevice_not_opened E hpp a d w c Ha Hid Hopen).
        cbn [fst heap controllers]. split; [reflexivity|].
        intros r. eapply is_Some_insert_live. exact Ha. }
    destruct (exchange_result E
                (trace w ++ hid_open_path (path d) :: closing (device c))
                h Wire.handshake) as [ack|] eqn:Hack.
    2:{ rewrite (openDevice_no_ack E hpp a d w c h Ha Hid Hopen Hack).
        cbn [fst heap controllers]. split; [reflexivity|].
        intros r. eapply is_Some_insert_live. exact Ha. }
    pose proof (openDevice_after_ack E hpp a d w c h Ha Hid Hopen) as Hrun.
    cbv zeta in Hrun. rewrite Hrun by (rewrite Hack; eexists; reflexivity).
    destruct (bool_decide _); cbn [fst heap controllers];
      (split; [reflexivity|]); intros r; eapply is_Some_insert_live; exact Ha.
  - unfold Session.openDevice. apply Z.eqb_eq in Hid. rewrite Hid. cbn [negb].
    unfold Session.device_reset. unfold_M. cbn [heap controllers trace].
    rewrite Ha. cbn [fst heap controllers]. split; reflexivity.
Qed.

Lemma vigemCallback_keeps_sessions (t : VIGEM_TARGET) (l s d : uchar)
    (w : World) :
  (forall r, r ∈ controllers w -> is_Some (heap w !! r)) ->
  controllers (fst (Session.vigemCallback t l s d w)) = controllers w /\
  trace (fst (Session.vigemCallback t l s d w)) = trace w /\
  forall r, is_Some (heap (fst (Session.vigemCallback t l s d w)) !! r)
            <-> is_Some (heap w !! r).
Proof.
  intros Hlive.
  unfold Session.vigemCallback, Session.find_in_registry. unfold_M.
  destruct (find_target_scan (heap w) t (controllers w) Hlive)
    as [(i & a & c & Hf & Hi & Ha & _)|[Hf _]]; rewrite Hf.
  - rewrite Ha. cbn [fst heap controllers trace].
    split; [reflexivity|]. split; [reflexivity|].
    intros r. eapply is_Some_insert_live. exact Ha.
  - cbn [fst]. repeat split; auto.
Qed.

(** X8. The registry holds exactly the live sessions, each once; this
    is kept by the constructor, by the destructor, by the feedback
    callback, by [openDevice] and by [pollInput], at any address and with
    any arguments, whatever their outcome. *)
Theorem registry_ok_preserved (w : World) :
  registry_ok w ->
  (forall a storage, registry_ok (fst (Session.Controller_ctor E a storage w))) /\
  (forall a, registry_ok (fst (Session.Controller_dtor E a w))) /\
  (forall t l s d, registry_ok (fst (Session.vigemCallback t l s d w))) /\
  (forall a dev, registry_ok (fst (Session.openDevice E hpp a dev w))) /\
  (forall a, registry_ok (fst (Session.pollInput E hpp a w))).
Proof.
  intros Hok. pose proof Hok as [Hnd Hiff]. repeat split.
  - destruct (heap w !! a) as [c|] eqn:Ha.
    + unfold Session.Controller_ctor. rewrite Ha. exact Hnd.
    + rewrite (Controller_ctor_run E a storage w Ha). cbn [fst controllers].
      apply NoDup_app. split; [exact Hnd|]. split; [|apply NoDup_singleton].
      intros x Hx Hxa. apply list_elem_of_singleton in Hxa as ->.
      apply Hiff in Hx. rewrite Ha in Hx. destruct Hx; discriminate.
  - destruct (heap w !! a) as [c|] eqn:Ha.
    + unfold Session.Controller_ctor. rewrite Ha. apply Hiff.
    + rewrite (Controller_ctor_run E a storage w Ha). cbn [fst controllers heap].
      intros Hin. rewrite lookup_insert_is_Some'.
      apply elem_of_app in Hin as [Hin|Hin].
      * right. apply Hiff. exact Hin.
      * left. apply list_elem_of_singleton in Hin. auto.
  - destruct (heap w !! a) as [c|] eqn:Ha.
    + unfold Session.Controller_ctor. rewrite Ha. apply Hiff.
    + rewrite (Controller_ctor_run E a storage w Ha). cbn [fst controllers heap].
      rewrite lookup_insert_is_Some'. intros [<-|Hr]; apply elem_of_app.
      * right. left.
      * left. apply Hiff. exact Hr.
  - destruct (heap w !! a) as [c|] eqn:Ha.
    + rewrite (Controller_dtor_run E a w c Ha). cbn [fst controllers].
      apply erase_first_NoDup_keeps. exact Hnd.
    + rewrite (Controller_dtor_dangling E a w Ha). exact Hnd.
  - destruct (heap w !! a) as [c|] eqn:Ha.
    + rewrite (Controller_dtor_run E a w c Ha). cbn [fst controllers heap].
      intros Hin. apply (elem_of_erase_first a r _ Hnd) in Hin as [Hin Hne].
      apply lookup_delete_is_Some. split; [congruence|]. apply Hiff. exact Hin.
    + rewrite (Controller_dtor_dangling E a w Ha). apply Hiff.
  - destruct (heap w !! a) as [c|] eqn:Ha.
    + rewrite (Controller_dtor_run E a w c Ha). cbn [fst controllers heap].
      intros Hr. apply lookup_delete_is_Some in Hr as [Hne Hr].
      apply (elem_of_erase_first a r _ Hnd). split; [|congruence].
      apply Hiff. exact Hr.
    + rewrite (Controller_dtor_dangling E a w Ha). apply Hiff.
  - destruct (vigemCallback_keeps_sessions t l s d w) as (Hc & _ & _);
      [intros r Hr; apply Hiff; exact Hr|].
    rewrite Hc. exact Hnd.
  - destruct (vigemCallback_keeps_sessions t l s d w) as (Hc & _ & Hh);
      [intros r' Hr'; apply Hiff; exact Hr'|].
    rewrite Hc, Hh. apply Hiff.
  - destruct (vigemCallback_keeps_sessions t l s d w) as (Hc & _ & Hh);
      [intros r' Hr'; apply Hiff; exact Hr'|].
    rewrite Hc, Hh. apply Hiff.
  - destruct (openDevice_keeps_sessions a dev w) as (Hc & _).
    rewrite Hc. exact Hnd.
  - destruct (openDevice_keeps_sessions a dev w) as (Hc & Hh).
    rewrite Hc, Hh. apply Hiff.
  - destruct (openDevice_keeps_sessions a dev w) as (Hc & Hh).
    rewrite Hc, Hh. apply Hiff.
  - destruct (pollInput_keeps_state E hpp a w) as (_ & Hc & _).
    rewrite Hc. exact Hnd.
  - destruct (pollInput_keeps_state E hpp a w) as (Hh & Hc & _).
    rewrite Hc, Hh. apply Hiff.
  - destruct (pollInput_keeps_state E hpp a w) as (Hh & Hc & _).
    rewrite Hc, Hh. apply Hiff.
Qed.

End RegistryInvariant.

Lemma two_sessions_registry_ok : registry_ok Sample.two_sessions.
Proof.
  split.
  - simpl. apply NoDup_cons. split; [|apply NoDup_singleton].
    intros H. apply list_elem_of_singleton in H. discriminate.
  - intros r. simpl. split.
    + intros Hr.
      apply elem_of_cons in Hr as [->|Hr]; [eexists; reflexivity|].
      apply elem_of_cons in Hr as [->|Hr]; [eexists; reflexivity|].
      inversion Hr.
    + intros Hr. apply lookup_insert_is_Some' in Hr as [<-|Hr]; [right; left|].
      apply lookup_insert_is_Some' in Hr as [<-|Hr]; [left|].
      rewrite lookup_empty in Hr. destruct Hr; discriminate.
Qed.

(** The invariant on [Sample.two_sessions], and after the destructor of
    its first session. *)
Lemma registry_ok_preserved_witness :
  registry_ok Sample.two_sessions /\
  registry_ok (fst (Session.Controller_dtor
                      (Sample.env Sample.ok None VIGEM_ERROR_NONE) 1%nat
                      Sample.two_sessions)).
Proof.
  split; [exact two_sessions_registry_ok|].
  destruct (registry_ok_preserved (Sample.env Sample.ok None VIGEM_ERROR_NONE)
              Sample.hpp Sample.two_sessions two_sessions_registry_ok)
    as (_ & Hdtor & _).
  apply Hdtor.
Defined.

(** ** Feedback callbacks in sequence *)

Section CallbackSequence.

Lemma find_target_same_identity (h : gmap addr Controller) (t : VIGEM_TARGET)
    (rs : list addr) (a : addr) (c c' : Controller) :
  h !! a = Some c ->
  vController c' = vController c ->
  Session.find_target (<[a := c']> h) t rs = Session.find_target h t rs.
Proof.
  intros Ha Hv. induction rs as [|r rs IH]; [reflexivity|].
  simpl. destruct (decide (a = r)) as [<-|Hne].
  - rewrite lookup_insert_eq, Ha, Hv. rewrite IH. reflexivity.
  - rewrite lookup_insert_ne by exact Hne. rewrite IH. reflexivity.
Qed.

(** X9. On a registry whose references are live, of two feedback
    callbacks for the same identity the later one wins: the state after
    both is the state after the second alone. And a callback never
    changes the virtual controller, the device handle or the time of the
    last command of any session, nor the registry, nor the trace. *)
Theorem vigemCallback_last_wins (t : VIGEM_TARGET)
    (l1 s1 d1 l2 s2 d2 : uchar) (w : World) :
  (forall r, r ∈ controllers w -> is_Some (heap w !! r)) ->
  (Session.vigemCallback t l1 s1 d1 ≫= fun _ =>
     Session.vigemCallback t l2 s2 d2) w
    = Session.vigemCallback t l2 s2 d2 w /\
  controllers (fst (Session.vigemCallback t l1 s1 d1 w)) = controllers w /\
  trace (fst (Session.vigemCallback t l1 s1 d1 w)) = trace w /\
  (forall r c, heap w !! r = Some c ->
     exists c', heap (fst (Session.vigemCallback t l1 s1 d1 w)) !! r = Some c' /\
                vController c' = vController c /\ device c' = device c /\
                lastCommand c' = lastCommand c).
Proof.
  intros Hlive.
  destruct (find_target_scan (heap w) t (controllers w) Hlive)
    as [(i & a & c & Hf & Hi & Ha & _)|[Hf _]].
  - assert (Hrun : forall l s d,
               Session.vigemCallback t l s d w
                 = ({| heap := <[a := set_feedback d l s c]> (heap w);
                       controllers := controllers w; trace := trace w |}, Ret tt)).
    { intros l s d. unfold Session.vigemCallback, Session.find_in_registry.
      unfold_M. rewrite Hf, Ha. reflexivity. }
    split; [|split; [|split]].
    + rewrite (mbind_M_ret _ _ _ _ _ (Hrun l1 s1 d1)), (Hrun l2 s2 d2).
      unfold Session.vigemCallback, Session.find_in_registry. unfold_M.
      cbn [heap controllers trace].
      rewrite (find_target_same_identity (heap w) t (controllers w) a c _ Ha)
        by reflexivity.
      rewrite Hf. cbn [heap controllers trace]. rewrite lookup_insert_eq.
      cbn [heap controllers trace]. rewrite insert_insert_eq. reflexivity.
    + rewrite Hrun. reflexivity.
    + rewrite Hrun. reflexivity.
    + intros r c0 Hr. rewrite Hrun. cbn [fst heap].
      destruct (decide (a = r)) as [<-|Hne].
      * rewrite lookup_insert_eq. rewrite Ha in Hr. injection Hr as <-.
        eexists. split; [reflexivity|]. repeat split.
      * rewrite lookup_insert_ne by exact Hne.
        exists c0. repeat split. exact Hr.
  - assert (Hrun : forall l s d, Session.vigemCallback t l s d w = (w, Ret tt)).
    { intros l s d. unfold Session.vigemCallback, Session.find_in_registry.
      unfold_M. rewrite Hf. reflexivity. }
    split; [|split; [|split]].
    + rewrite (mbind_M_ret _ _ _ _ _ (Hrun l1 s1 d1)). reflexivity.
    + rewrite Hrun. reflexivity.
    + rewrite Hrun. reflexivity.
    + intros r c0 Hr. rewrite Hrun. exists c0. repeat split. exact Hr.
Qed.

End CallbackSequence.

(** Two callbacks for the second session of [Sample.two_sessions]. *)
Lemma vigemCallback_last_wins_witness :
  (Session.vigemCallback (Sample.target 2 VIGEM_TARGET_CONNECTED) 10 20 1 ≫= fun _ =>
     Session.vigemCallback (Sample.target 2 VIGEM_TARGET_CONNECTED) 30 40 2)
      Sample.two_sessions
    = Session.vigemCallback (Sample.target 2 VIGEM_TARGET_CONNECTED) 30 40 2
        Sample.two_sessions.
Proof.
  apply (vigemCallback_last_wins (Sample.target 2 VIGEM_TARGET_CONNECTED)
           10 20 1 30 40 2 Sample.two_sessions).
  intros r Hr. apply two_sessions_registry_ok. exact Hr.
Defined.

(** ** A session from construction to destruction *)

Section WholeSession.
Context (E : Env) (hpp : Hpp).

(** X15. [openDevice] checks its argument before it touches anything: on
    a null [dev] or a product id other than the Pro Controller's it
    throws without a call on any collaborator and without a change of
    state. When the path cannot be opened, the session is left without a
    device handle, the handle it held before having been closed, and no
    message is sent. *)
Theorem openDevice_rejects_before_io (a : addr) (w : World) :
  Session.openDevice E hpp a None w
    = (w, Throw (ControllerException
                   "Unable to open controller device: dev was nullptr.")) /\
  (forall d, product_id d <> Procon_ID hpp ->
     Session.openDevice E hpp a (Some d) w
       = (w, Throw (ControllerException
           "Unable to open controller device: product id was not a Switch Pro Controller."))) /\
  (forall d c, heap w !! a = Some c -> product_id d = Procon_ID hpp ->
     open_path_result E (trace w) (path d) = None ->
     Session.openDevice E hpp a (Some d) w
       = ({| heap := <[a := set_device None c]> (heap w);
             controllers := controllers w;
             trace := trace w ++ hid_open_path (path d) :: closing (device c) |},
          Throw (ControllerException
            "Unable to open controller device: device path could not be opened."))).
Proof.
  split; [apply openDevice_null|]. split.
  - intros d Hne. apply openDevice_wrong_product. exact Hne.
  - intros d c Ha Hid Hopen. apply openDevice_not_opened; assumption.
Qed.

(** X13. A session built at a free address whose handshake is not
    acknowledged, and then destroyed: [openDevice] throws
    "Handshake failed." with the handle still open; the destructor then
    sends the disconnect sequence and closes that handle, without any
    unplug, and sessions and registry are as before the construction. *)
Theorem failed_handshake_then_destroy (a : addr) (storage : Controller)
    (d : hid_device_info) (h : hid_device) (w : World) :
  heap w !! a = None ->
  a ∉ controllers w ->
  State (VIGEM_TARGET_INIT E Session.zero_target) <> VIGEM_TARGET_CONNECTED ->
  product_id d = Procon_ID hpp ->
  open_path_result E (trace w) (path d) = Some h ->
  exchange_result E (trace w ++ [hid_open_path (path d)]) h [0x80; 0x02] = None ->
  let run := (Session.Controller_ctor E a storage ≫= fun _ =>
                Session.openDevice E hpp a (Some d)) w in
  snd run = Throw (ControllerException "Handshake failed.") /\
  (device <$> heap (fst run) !! a) = Some (Some h) /\
  Session.Controller_dtor E a (fst run)
    = ({| heap := heap w; controllers := controllers w;
          trace := trace w ++ [hid_open_path (path d);
                               exchange h [0x80; 0x02];
                               exchange h [0x80; 0x05];
                               hid_close h] |}, Ret tt).
Proof.
  intros Ha Hnot Hinit Hid Hopen Hack run.
  assert (Hrun : run
    = ({| heap := <[a := set_device (Some h) (constructed E storage)]> (heap w);
          controllers := controllers w ++ [a];
          trace := trace w ++ [hid_open_path (path d); exchange h [0x80; 0x02]] |},
       Throw (ControllerException "Handshake failed."))).
  { unfold run.
    rewrite (mbind_M_ret _ _ _ _ _ (Controller_ctor_run E a storage w Ha)).
    rewrite (openDevice_no_ack E hpp a d _ (constructed E storage) h);
      cbn [heap controllers trace];
      [settle; reflexivity | apply lookup_insert_eq | exact Hid | exact Hopen
      | exact Hack]. }
  rewrite Hrun. cbn [fst snd heap]. split; [reflexivity|].
  split; [rewrite lookup_insert_eq; reflexivity|].
  erewrite Controller_dtor_run by (cbn [heap]; apply lookup_insert_eq).
  cbn [heap controllers trace].
  rewrite (delete_insert_id _ _ _ Ha), (erase_first_last a _ Hnot).
  unfold teardown_calls, constructed.
  cbn [vController device set_device set_vController set_lastCommand].
  rewrite decide_False by exact Hinit. rewrite <- app_assoc. reflexivity.
Qed.

(** X14. A session built at a free address, opened with success (the
    handshake acknowledged, the plug-in returning no error and a connected
    target [t']) and then destroyed: every call from the opening of the
    path to the closing of the handle appears once, in order; the unplug
    is for the target the callback was registered with; and sessions and
    registry are as before the construction. *)
Theorem session_lifecycle (a : addr) (storage : Controller)
    (d : hid_device_info) (h : hid_device) (t' : VIGEM_TARGET) (w : World) :
  heap w !! a = None ->
  a ∉ controllers w ->
  product_id d = Procon_ID hpp ->
  open_path_result E (trace w) (path d) = Some h ->
  is_Some (exchange_result E (trace w ++ [hid_open_path (path d)]) h [0x80; 0x02]) ->
  plugin_result E ((trace w ++ [hid_open_path (path d)]) ++ handshake_calls h)
    (VIGEM_TARGET_INIT E Session.zero_target) = (VIGEM_ERROR_NONE, t') ->
  State t' = VIGEM_TARGET_CONNECTED ->
  let run := (Session.Controller_ctor E a storage ≫= fun _ =>
                Session.openDevice E hpp a (Some d)) w in
  snd run = Ret tt /\
  (Session.connected <$> heap (fst run) !! a) = Some true /\
  Session.Controller_dtor E a (fst run)
    = ({| heap := heap w; controllers := controllers w;
          trace := trace w ++ [hid_open_path (path d)] ++ handshake_calls h
                     ++ [vigem_target_plugin Xbox360Wired
                           (VIGEM_TARGET_INIT E Session.zero_target);
                         sleep_for 100;
                         vigem_register_xusb_notification t';
                         sleep_for 100;
                         vigem_target_unplug t';
                         exchange h [0x80; 0x05];
                         hid_close h] |}, Ret tt).
Proof.
  intros Ha Hnot Hid Hopen Hack Hplug Hconn run.
  pose proof (openDevice_after_ack E hpp a d
                {| heap := <[a := constructed E storage]> (heap w);
                   controllers := controllers w ++ [a]; trace := trace w |}
                (constructed E storage) h) as Hopened.
  cbv zeta in Hopened.
  cbn [heap controllers trace closing device constructed set_device
       set_vController set_lastCommand vController] in Hopened.
  specialize (Hopened (lookup_insert_eq _ _ _) Hid Hopen Hack).
  rewrite Hplug in Hopened. cbn [fst snd] in Hopened.
  rewrite bool_decide_eq_true_2 in Hopened by reflexivity.
  unfold run.
  rewrite (mbind_M_ret _ _ _ _ _ (Controller_ctor_run E a storage w Ha)).
  rewrite Hopened. cbn [fst snd heap]. split; [reflexivity|].
  split.
  { rewrite lookup_insert_eq. cbn [fmap option_fmap option_map].
    unfold Session.connected. cbn [vController set_vController].
    rewrite bool_decide_eq_true_2 by exact Hconn. reflexivity. }
  erewrite Controller_dtor_run by (cbn [heap]; apply lookup_insert_eq).
  cbn [heap controllers trace].
  rewrite insert_insert_eq, (delete_insert_id _ _ _ Ha),
    (erase_first_last a _ Hnot).
  unfold teardown_calls.
  cbn [vController device set_device set_vController set_lastCommand].
  rewrite decide_True by exact Hconn.
  rewrite <- !app_assoc. reflexivity.
Qed.

End WholeSession.

(** In the empty process: a device that does not acknowledge. *)
Lemma failed_handshake_then_destroy_witness :
  let E := Sample.env None None VIGEM_ERROR_NONE in
  Session.Controller_dtor E 1%nat
      (fst (Sample.establish E (Some Sample.pro_controller)))
    = ({| heap := ∅; controllers := [];
          trace := [hid_open_path "usb-1"; exchange 1%nat [0x80; 0x02];
                    exchange 1%nat [0x80; 0x05]; hid_close 1%nat] |}, Ret tt).
Proof.
  intros E.
  destruct (failed_handshake_then_destroy E Sample.hpp 1%nat Sample.storage
              Sample.pro_controller 1%nat Sample.empty_world)
    as (_ & _ & Hdtor).
  - reflexivity.
  - apply not_elem_of_nil.
  - discriminate.
  - reflexivity.
  - reflexivity.
  - reflexivity.
  - exact Hdtor.
Defined.

(** In the empty process: a device that acknowledges, a driver that
    plugs in. *)
Lemma session_lifecycle_witness :
  let E := Sample.env Sample.ok None VIGEM_ERROR_NONE in
  let t' := {| Size := 20; SerialNo := 1; State := VIGEM_TARGET_CONNECTED;
               VendorId := 0; ProductId := 0 |} in
  snd (Sample.establish E (Some Sample.pro_controller)) = Ret tt /\
  Session.Controller_dtor E 1%nat
      (fst (Sample.establish E (Some Sample.pro_controller)))
    = ({| heap := ∅; controllers := [];
          trace := [hid_open_path "usb-1"] ++ handshake_calls 1%nat
                     ++ [vigem_target_plugin Xbox360Wired
                           (VIGEM_TARGET_INIT E Session.zero_target);
                         sleep_for 100;
                         vigem_register_xusb_notification t';
                         sleep_for 100;
                         vigem_target_unplug t';
                         exchange 1%nat [0x80; 0x05];
                         hid_close 1%nat] |}, Ret tt).
Proof.
  intros E t'.
  destruct (session_lifecycle E Sample.hpp 1%nat Sample.storage
              Sample.pro_controller 1%nat t' Sample.empty_world)
    as (Hret & _ & Hdtor).
  - reflexivity.
  - apply not_elem_of_nil.
  - reflexivity.
  - reflexivity.
  - eexists. reflexivity.
  - reflexivity.
  - reflexivity.
  - split; [exact Hret | exact Hdtor].
Defined.

(** ** Button names *)

Section ButtonNames.

(** X11. [buttonToString] gives the nineteen enumerators nineteen
    different names, none of which is "Unknown", and gives "Unknown" to
    every other value: a printed name other than "Unknown" identifies the
    button. *)
Theorem buttonToString_identifies :
  (forall b1 b2, is_enumerator b1 = true -> is_enumerator b2 = true ->
     buttonToString b1 = buttonToString b2 -> b1 = b2) /\
  (forall b, buttonToString b = "Unknown"%string <-> is_enumerator b = false).
Proof.
  split.
  - intros b1 b2 H1 H2 Heq.
    destruct b1; try discriminate H1; destruct b2; try discriminate H2;
      try reflexivity; vm_compute in Heq; discriminate Heq.
  - intros b. split.
    + destruct b; intros H; try reflexivity; vm_compute in H; discriminate H.
    + destruct b; intros H; try discriminate H; reflexivity.
Qed.

End ButtonNames.

(** ** From the button bytes to the report *)

Section ButtonsEndToEnd.
Context (hpp : Hpp).

Lemma some_held_app (f : Button.t -> bool) (l1 l2 : list (Button.t * bool)) :
  some_held f (l1 ++ l2) = some_held f l1 || some_held f l2.
Proof. unfold some_held. apply existsb_app. Qed.

Lemma some_held_slots (f : Button.t -> bool) (map : list Button.t) (c : uchar)
    (slots : list nat) :
  f Button.None = false ->
  some_held f (slot_pair map c
                 <$> filter (fun j => map !!! j <> Button.None) slots)
    = existsb (fun i : nat => Z.testbit c (Z.of_nat i) && f (map !!! i)) slots.
Proof.
  intros Hf. induction slots as [|i slots IH]; [reflexivity|].
  rewrite filter_cons. cbn [existsb]. rewrite <- IH.
  destruct (decide (map !!! i <> Button.None)) as [Hne|Heq].
  - reflexivity.
  - apply dec_stable in Heq. rewrite Heq, Hf, andb_false_r. reflexivity.
Qed.

Lemma pullButtonsFromByte_run (c : uchar) (g : ButtonSource.t)
    (map : list Button.t) (out : list (Button.t * bool)) :
  Mapping.getButtonMap hpp g = Ret map -> length map = 8%nat ->
  Mapping.pullButtonsFromByte hpp c g out
    = Ret (out ++ (slot_pair map c <$> live_slots map 0 8)).
Proof.
  intros Hmap Hlen. unfold Mapping.pullButtonsFromByte. rewrite Hmap.
  unfold_outcome. apply pull_loop_spec. lia.
Qed.

(** X17. From the three button bytes of a packet to the report: a bit of
    the button field is set exactly when it was set in the report passed
    in, or some slot of the left, right or middle table whose bit is set
    in the corresponding byte holds a button mapped to that bit; the left
    trigger is 255 when such a slot holds LZ, the right trigger when such
    a slot holds RZ, and otherwise they are as passed in. *)
Theorem mapInputToReport_buttons (hd un : list uchar)
    (rb mb lb s0 s1 s2 s3 s4 s5 : uchar) (r : XUSB_REPORT) :
  0 <= s2 <= 255 -> 0 <= s5 <= 255 ->
  0 <= wButtons r < 2 ^ 16 ->
  let p := mkInputPacket hd un rb mb lb [s0; s1; s2; s3; s4; s5] in
  let held f := held_in (JoyconLBitmap hpp) lb f
                || held_in (JoyconRBitmap hpp) rb f
                || held_in (JoyconMidBitmap hpp) mb f in
  exists r',
    Mapping.mapInputToReport hpp p r = Ret r' /\
    (forall k, 0 <= k ->
       Z.testbit (wButtons r') k
         = Z.testbit (wButtons r) k
           || held (fun b => Z.testbit (Mapping.buttonToReportBits b) k)) /\
    bLeftTrigger r'
      = (if held (fun b => bool_decide (b = Button.LZ)) then 255
         else bLeftTrigger r) /\
    bRightTrigger r'
      = (if held (fun b => bool_decide (b = Button.RZ)) then 255
         else bRightTrigger r).
Proof.
  intros H2 H5 Hr p held.
  assert (Hpairs : forall f, f Button.None = false ->
            some_held f
              ((([] ++ (slot_pair (JoyconLBitmap hpp) lb
                         <$> live_slots (JoyconLBitmap hpp) 0 8))
                  ++ (slot_pair (JoyconRBitmap hpp) rb
                        <$> live_slots (JoyconRBitmap hpp) 0 8))
               ++ (slot_pair (JoyconMidBitmap hpp) mb
                     <$> live_slots (JoyconMidBitmap hpp) 0 8))
            = held f).
  { intros f Hf. rewrite !some_held_app. unfold live_slots.
    rewrite !some_held_slots by exact Hf. reflexivity. }
  destruct (mapInputToReport_byte_packet hpp hd un rb mb lb s0 s1 s2 s3 s4 s5 r
              H2 H5) as (r' & Hrun & _).
  fold p in Hrun. exists r'. split; [exact Hrun|].
  unfold Mapping.mapInputToReport in Hrun. unfold_outcome.
  destruct (Axis.expandUChar (Mapping.LeftX p)) as [lx| |]; try discriminate.
  destruct (Axis.expandUChar (Mapping.LeftY p)) as [ly| |]; try discriminate.
  destruct (Axis.expandUChar (Mapping.RightX p)) as [rx| |]; try discriminate.
  destruct (Axis.expandUChar (Mapping.RightY p)) as [ry| |]; try discriminate.
  rewrite (pullButtonsFromByte_run _ ButtonSource.Left (JoyconLBitmap hpp))
    in Hrun by (reflexivity || apply JoyconLBitmap_size).
  rewrite (pullButtonsFromByte_run _ ButtonSource.Right (JoyconRBitmap hpp))
    in Hrun by (reflexivity || apply JoyconRBitmap_size).
  rewrite (pullButtonsFromByte_run _ ButtonSource.Middle (JoyconMidBitmap hpp))
    in Hrun by (reflexivity || apply JoyconMidBitmap_size).
  injection Hrun as <-. cbn [leftButtons rightButtons middleButtons p].
  match goal with |- context [foldl Mapping.press ?r0 ?bs] =>
    destruct (foldl_press_spec bs r0 Hr) as (_ & Hbits & Hl & Hrt) end.
  cbv zeta in Hbits, Hl, Hrt.
  cbn [wButtons bLeftTrigger bRightTrigger] in Hbits, Hl, Hrt.
  split; [|split].
  - intros k Hk. rewrite (Hbits k Hk), Hpairs; [reflexivity|apply Z.bits_0].
  - rewrite Hl, Hpairs by reflexivity. reflexivity.
  - rewrite Hrt, Hpairs by reflexivity. reflexivity.
Qed.

End ButtonsEndToEnd.

(** With [Sample.hpp]: A (right byte, bit 3) and LZ (left byte, bit 7)
    held, Share (middle byte, bit 5) held as well. *)
Lemma mapInputToReport_buttons_witness :
  exists r',
    Mapping.mapInputToReport Sample.hpp
      (mkInputPacket [] [] 0x08 0x20 0x80 [0; 0; 0x80; 0; 0; 0x80]) zero_report
      = Ret r' /\
    Z.testbit (wButtons r') 12 = true /\ Z.testbit (wButtons r') 13 = false /\
    bLeftTrigger r' = 255 /\ bRightTrigger r' = 0.
Proof.
  destruct (mapInputToReport_buttons Sample.hpp [] [] 0x08 0x20 0x80
              0 0 0x80 0 0 0x80 zero_report)
    as (r' & Hrun & Hbits & Hl & Hr); [lia | lia | simpl; lia |].
  exists r'. split; [exact Hrun|].
  rewrite (Hbits 12), (Hbits 13), Hl, Hr by lia.
  repeat split; reflexivity.
Defined.

(** ** Handles and teardown in every case *)

Section Handles.
Context (E : Env) (hpp : Hpp).

(** X18. The destructor of a live session always returns, removes the
    session's first reference from the registry and releases the object.
    It unplugs only a connected virtual controller and sends the
    disconnect sequence and closes the handle only when a device is open:
    on a session that is neither connected nor open it makes no call at
    all. On an address without a live session it is undefined. *)
Theorem destructor_every_case (a : addr) (w : World) :
  (forall c, heap w !! a = Some c ->
     Session.Controller_dtor E a w
       = ({| heap := delete a (heap w);
             controllers := Session.erase_first a (controllers w);
             trace := trace w
               ++ (if decide (State (vController c) = VIGEM_TARGET_CONNECTED)
                   then [vigem_target_unplug (vController c)] else [])
               ++ match device c with
                  | Some h => [exchange h [0x80; 0x05]; hid_close h]
                  | None => []
                  end |}, Ret tt) /\
     heap (fst (Session.Controller_dtor E a w)) !! a = None /\
     (State (vController c) <> VIGEM_TARGET_CONNECTED -> device c = None ->
      trace (fst (Session.Controller_dtor E a w)) = trace w)) /\
  (heap w !! a = None -> Session.Controller_dtor E a w = (w, Undefined)).
Proof.
  split; [|apply Controller_dtor_dangling].
  intros c Ha. rewrite (Controller_dtor_run E a w c Ha).
  split; [reflexivity|]. cbn [fst heap trace]. split.
  - apply lookup_delete_eq.
  - intros Hst Hd. unfold teardown_calls. rewrite Hd.
    rewrite decide_False by exact Hst. cbn [app]. apply app_nil_r.
Qed.

(** X16. When [openDevice] is called on a session that already holds a
    device handle, with the right product id, the new path is opened
    first and the handle held before is closed next, before any message
    is sent, whether or not the new path could be opened. *)
Theorem reopen_closes_previous_handle (a : addr) (w : World) (c : Controller)
    (d : hid_device_info) (h0 : hid_device) :
  heap w !! a = Some c ->
  device c = Some h0 ->
  product_id d = Procon_ID hpp ->
  exists rest,
    trace (fst (Session.openDevice E hpp a (Some d) w))
      = trace w ++ [hid_open_path (path d); hid_close h0] ++ rest /\
    (open_path_result E (trace w) (path d) = None -> rest = []).
Proof.
  intros Ha Hd Hid.
  destruct (open_path_result E (trace w) (path d)) as [h|] eqn:Hopen.
  - destruct (exchange_result E
                (trace w ++ hid_open_path (path d) :: closing (device c))
                h Wire.handshake) as [ack|] eqn:Hack.
    + pose proof (openDevice_after_ack E hpp a d w c h Ha Hid Hopen) as Hrun.
      cbv zeta in Hrun. rewrite Hrun by (rewrite Hack; eexists; reflexivity).
      clear Hrun. rewrite Hd. cbn [closing].
      destruct (bool_decide
                  (fst (plugin_result E _ (vController c)) = VIGEM_ERROR_NONE));
        cbn [fst trace]; eexists;
        (split; [rewrite <- !app_assoc; reflexivity|discriminate]).
    + rewrite (openDevice_no_ack E hpp a d w c h Ha Hid Hopen Hack).
      rewrite Hd. cbn [fst trace closing]. eexists.
      split; [reflexivity|discriminate].
  - rewrite (openDevice_not_opened E hpp a d w c Ha Hid Hopen).
    rewrite Hd. cbn [fst trace closing]. exists [].
    split; [reflexivity|reflexivity].
Qed.

End Handles.

(** The first session of [Sample.two_sessions], which holds handle 11,
    opens a device again. *)
Lemma reopen_closes_previous_handle_witness :
  exists rest,
    trace (fst (Session.openDevice (Sample.env Sample.ok None VIGEM_ERROR_NONE)
                  Sample.hpp 1%nat (Some Sample.pro_controller)
                  Sample.two_sessions))
      = [hid_open_path "usb-1"; hid_close 11%nat] ++ rest.
Proof.
  destruct (reopen_closes_previous_handle
              (Sample.env Sample.ok None VIGEM_ERROR_NONE) Sample.hpp 1%nat
              Sample.two_sessions
              (Sample.session 1 VIGEM_TARGET_CONNECTED (Some 11%nat))
              Sample.pro_controller 11%nat eq_refl eq_refl eq_refl)
    as (rest & Htrace & _).
  exists rest. exact Htrace.
Defined.
